(** * Field selection and relation expansion of the wadofstuff serializers

    A shallow embedding of [wadofstuff/django/serializers/base.py] (the
    orchestrator, [Base]) and [wadofstuff/django/serializers/python.py]
    (the field-value resolver, [Python]), followed by the properties of
    field selection and relation expansion.

    Python objects are untyped, so the embedding works over one type of
    Python values and turns every attribute access, call or subscript that
    Python would reject into a raised exception. *)

From Stdlib Require Import String Ascii List ZArith Bool Lia.
From Stdlib Require Import DecimalString.
Import ListNotations.
Local Open Scope string_scope.
Local Open Scope list_scope.

(** ** Exceptions and fallible computations *)

Inductive exn : Type :=
| AttributeError
| TypeError
| KeyError
| IndexError.

Inductive result (A : Type) : Type :=
| Ok (a : A)
| Raise (e : exn).
Arguments Ok {A} a.
Arguments Raise {A} e.

Definition bind {A B : Type} (m : result A) (k : A -> result B) : result B :=
  match m with
  | Ok a => k a
  | Raise e => Raise e
  end.

Notation "x <- m ;; k" := (bind m (fun x => k))
  (at level 61, m at next level, right associativity).

(** A [for] loop whose body updates the state and may raise. *)
Fixpoint for_each {A S : Type} (body : A -> S -> result S) (l : list A) (st : S)
  : result S :=
  match l with
  | [] => Ok st
  | x :: tl => st' <- body x st ;; for_each body tl st'
  end.

(** A list comprehension whose element expression may raise. *)
Fixpoint comprehension {A B : Type} (f : A -> result B) (l : list A)
  : result (list B) :=
  match l with
  | [] => Ok []
  | x :: tl => y <- f x ;; ys <- comprehension f tl ;; Ok (y :: ys)
  end.

(** [name in l] for a list of strings. *)
Definition contains (l : list string) (n : string) : bool :=
  existsb (String.eqb n) l.

(** [not l]: the truth value of a list is its non-emptiness. *)
Definition is_empty {A : Type} (l : list A) : bool :=
  match l with
  | [] => true
  | _ :: _ => false
  end.

(** [s[:-3]]: everything but the last three characters, the empty string
    when [s] has at most three. *)
Definition drop_last3 (s : string) : string :=
  substring 0 (String.length s - 3) s.

(** ** Python values *)

(** Model instances live in a store and are referred to by identity, so
    that relation graphs may be cyclic. *)
Definition ref := nat.

Inductive pyval : Type :=
| PyNone
| PyBool (b : bool)
| PyInt (n : Z)
| PyStr (s : string)
| PyProtected (repr : string)
    (* float, Decimal, datetime, date, time *)
| PyObject (repr : string)
    (* any other plain object, [repr] being its str(): a UUID, a tuple *)
| PyCallable (repr : string) (ret : pyval)
    (* a bound method taking no argument and returning [ret] *)
| PyModel (r : ref)
    (* a model instance *)
| PyManager (repr : string) (items : list ref).
    (* a models.Manager over the related instances, in iteration order *)

Definition is_none (v : pyval) : bool :=
  match v with
  | PyNone => true
  | _ => false
  end.

(** [callable(v)] *)
Definition callable (v : pyval) : bool :=
  match v with
  | PyCallable _ _ => true
  | _ => false
  end.

(** [v()] *)
Definition call0 (v : pyval) : result pyval :=
  match v with
  | PyCallable _ ret => Ok ret
  | _ => Raise TypeError
  end.

(** [isinstance(v, models.Manager)] *)
Definition is_manager (v : pyval) : bool :=
  match v with
  | PyManager _ _ => true
  | _ => false
  end.

(** [v.iterator()] and [v.all()]: only managers have them. *)
Definition iterator (v : pyval) : result (list pyval) :=
  match v with
  | PyManager _ items => Ok (map PyModel items)
  | _ => Raise AttributeError
  end.

(** ** The serialized structure: nested dicts, lists and scalars *)

#[local] Set Warnings "-register-all".
Inductive value : Type :=
| VScalar (v : pyval)
| VDict (items : list (string * value))
| VList (items : list value).

Definition dict := list (string * value).

(** [d[k]] as a lookup; [None] when [k not in d]. *)
Fixpoint dict_get (d : dict) (k : string) : option value :=
  match d with
  | [] => None
  | (k', v) :: tl => if String.eqb k' k then Some v else dict_get tl k
  end.

(** [d[k] = v]: an existing key keeps its position, a new one goes last. *)
Fixpoint dict_set (d : dict) (k : string) (v : value) : dict :=
  match d with
  | [] => [(k, v)]
  | (k', v') :: tl =>
      if String.eqb k' k then (k', v) :: tl else (k', v') :: dict_set tl k v
  end.

(** [container[k] = v] on an arbitrary value: only dicts accept it. *)
Definition setitem (container : value) (k : string) (v : value) : result value :=
  match container with
  | VDict d => Ok (VDict (dict_set d k v))
  | _ => Raise TypeError
  end.

(** [container[k]] read back, for the statements. *)
Definition getitem (container : value) (k : string) : option value :=
  match container with
  | VDict d => dict_get d k
  | _ => None
  end.

(** The truth value of a dict-or-None. *)
Definition truthy (container : value) : bool :=
  match container with
  | VDict (_ :: _) => true
  | VList (_ :: _) => true
  | _ => false
  end.

(** [l[0]] *)
Definition first {A : Type} (l : list A) : result A :=
  match l with
  | [] => Raise IndexError
  | x :: _ => Ok x
  end.

(** ** Model metadata, as the serializers read it *)

Module Rel.
(** [field.rel]: the remote side of a relational field. *)
Inductive t : Type :=
| ManyToOne (field_name : string)
    (* ForeignKey and OneToOneField: the referenced remote field *)
| ManyToMany (through_auto_created : bool) (to_has_natural_key : bool).
    (* ManyToManyField: [rel.through._meta.auto_created] and
       [hasattr(rel.to, 'natural_key')] *)

Definition field_name (r : t) : result string :=
  match r with
  | ManyToOne n => Ok n
  | ManyToMany _ _ => Raise AttributeError
  end.
End Rel.

Module Field.
(** A declared field. [value_to_string] is the field class's rendering of
    the value it reads from an object. *)
Record t : Type := Make {
  attname : string;
  name : string;
  serialize : bool;
  rel : option Rel.t;
  value_to_string : pyval -> string
}.
End Field.

Module Relation.
(** A reverse relation as [get_all_related_objects()] or [get_fields()]
    returns it. *)
Record t : Type := Make {
  one_to_many : bool;
  one_to_one : bool;
  many_to_many : bool;
  auto_created : bool;
  concrete : bool;
  get_accessor_name : string
}.
End Relation.

Module Meta.
(** [obj._meta]. The two [get_all_related_*] methods exist only in older
    releases of the framework: [None] stands for a missing attribute.
    [get_fields] takes [include_hidden]. *)
Record t : Type := Make {
  label : string;
  pk_name : string;
  local_fields : list Field.t;
  many_to_many : list Field.t;
  get_all_related_objects : option (list Relation.t);
  get_all_related_many_to_many_objects : option (list Relation.t);
  get_fields : bool -> list Relation.t
}.
End Meta.

(** A model instance: its metadata, its primary-key value, its attribute
    namespace and its str(). *)
Record instance : Type := ModelInstance {
  _meta : Meta.t;
  _get_pk_val : pyval;
  attrs : list (string * pyval);
  to_str : string
}.

Fixpoint assoc (l : list (string * pyval)) (k : string) : option pyval :=
  match l with
  | [] => None
  | (k', v) :: tl => if String.eqb k' k then Some v else assoc tl k
  end.

(** [hasattr(obj, name)] *)
Definition hasattr (obj : instance) (n : string) : bool :=
  match assoc (attrs obj) n with
  | Some _ => true
  | None => false
  end.

(** [getattr(obj, name)] *)
Definition getattr (obj : instance) (n : string) : result pyval :=
  match assoc (attrs obj) n with
  | Some v => Ok v
  | None => Raise AttributeError
  end.

(** [field._get_val_from_obj(obj)] for an [obj] that is not None. *)
Definition _get_val_from_obj (field : Field.t) (obj : instance) : result pyval :=
  getattr obj (Field.attname field).

(** [field.rel.x]: attribute access on None raises. *)
Definition field_rel (field : Field.t) : result Rel.t :=
  match Field.rel field with
  | Some r => Ok r
  | None => Raise AttributeError
  end.

(** ** django.utils.encoding *)

(** [is_protected_type(v)]: None, int (bool included), float, Decimal,
    datetime, date and time. Strings are not protected. *)
Definition is_protected_type (v : pyval) : bool :=
  match v with
  | PyNone | PyBool _ | PyInt _ | PyProtected _ => true
  | _ => false
  end.

Section Encoding.
Variable db : ref -> instance.

(** [str(v)] *)
Definition py_str (v : pyval) : string :=
  match v with
  | PyNone => "None"
  | PyBool true => "True"
  | PyBool false => "False"
  | PyInt n => NilZero.string_of_int (Z.to_int n)
  | PyStr s => s
  | PyProtected repr => repr
  | PyObject repr => repr
  | PyCallable repr _ => repr
  | PyModel r => to_str (db r)
  | PyManager repr _ => repr
  end.

(** The string form of a value: [str(v)], as a Python string. *)
Definition string_form (v : pyval) : pyval := PyStr (py_str v).

(** [smart_str(v, strings_only=True)]: strings and protected values are
    returned as they are, anything else is replaced by its str(). *)
Definition smart_str (v : pyval) : pyval :=
  match v with
  | PyStr _ => v
  | _ => if is_protected_type v then v else string_form v
  end.

(** [obj._meta] on an arbitrary value: only model instances have it. *)
Definition as_model (v : pyval) : result instance :=
  match v with
  | PyModel r => Ok (db r)
  | _ => Raise AttributeError
  end.

(** [hasattr(v, name)] and [getattr(v, name)] on an arbitrary value: the
    embedding gives attributes to model instances only. *)
Definition hasattr_val (v : pyval) (n : string) : bool :=
  match v with
  | PyModel r => hasattr (db r) n
  | _ => false
  end.

Definition getattr_val (v : pyval) (n : string) : result pyval :=
  match v with
  | PyModel r => getattr (db r) n
  | _ => Raise AttributeError
  end.
End Encoding.

(** ** Options *)

(** The keyword arguments of [serialize]. [relations] is a list of names
    or a dict from names to nested option dicts; a dict value that is not
    itself a dict is [NotDict]. A dict is a chain of items with distinct
    keys, looked up from the front. *)
Inductive options : Type :=
| Options (fields excludes : list string) (relations : relations_t)
          (extras : list string) (use_natural_keys : bool)
with relations_t : Type :=
| RelList (names : list string)
| RelDict (items : rel_items)
with rel_items : Type :=
| RelNil
| RelCons (key : string) (val : rel_value) (rest : rel_items)
with rel_value : Type :=
| IsDict (o : options)
| NotDict.

(** [{}]: every option at its default. *)
Definition no_options : options := Options [] [] (RelList []) [] false.

Definition opt_excludes (o : options) : list string :=
  match o with Options _ e _ _ _ => e end.
Definition opt_relations (o : options) : relations_t :=
  match o with Options _ _ r _ _ => r end.

(** [d[k]] for the dict form of [relations]. *)
Fixpoint rel_lookup (d : rel_items) (k : string) : option rel_value :=
  match d with
  | RelNil => None
  | RelCons k' v rest => if String.eqb k' k then Some v else rel_lookup rest k
  end.

(** [name in self.relations]: list membership, or dict key membership. *)
Definition rel_contains (r : relations_t) (n : string) : bool :=
  match r with
  | RelList names => contains names n
  | RelDict d =>
      match rel_lookup d n with
      | Some _ => true
      | None => false
      end
  end.

(** A [serialize] method with its options already bound. *)
Definition serializer := list pyval -> result (list value).

(** ** base.py: the orchestrator *)

Module Base.

(** The hooks [Serializer.serialize] calls on [self]; [S] is the state a
    concrete serializer keeps between them and [Out] what [getvalue]
    returns. *)
Class Hooks (S Out : Type) : Type := {
  start_serialization : S -> result S;
  end_serialization : S -> result S;
  start_object : pyval -> S -> result S;
  end_object : instance -> S -> result S;
  handle_field : instance -> Field.t -> S -> result S;
  handle_fk_field : instance -> Field.t -> S -> result S;
  handle_m2m_field : instance -> Field.t -> S -> result S;
  handle_related_fk_field : instance -> string -> S -> result S;
  handle_related_m2m_field : instance -> string -> S -> result S;
  handle_extra_field : instance -> string -> S -> result S;
  getvalue : S -> Out
}.

(** The reverse relations of a model, from the old metadata interface
    where it exists and from [get_fields] otherwise. *)
Definition related_fk_objects (m : Meta.t) : list Relation.t :=
  match Meta.get_all_related_objects m with
  | Some l => l
  | None =>
      filter
        (fun f =>
           (Relation.one_to_many f || Relation.one_to_one f)
           && Relation.auto_created f
           && negb (Relation.concrete f))
        (Meta.get_fields m false)
  end.

Definition related_m2m_objects (m : Meta.t) : list Relation.t :=
  match Meta.get_all_related_many_to_many_objects m with
  | Some l => l
  | None =>
      filter
        (fun f => Relation.many_to_many f && Relation.auto_created f)
        (Meta.get_fields m true)
  end.

Section Serialize.
Context {S Out : Type} {hooks : Hooks S Out}.
Variable db : ref -> instance.
(** [self.fields], [self.excludes], [self.extras] *)
Variables fields excludes extras : list string.

(** The body of [for field in obj._meta.local_fields]. *)
Definition local_field_step (obj : instance) (field : Field.t) (self : S)
  : result S :=
  let attname := Field.attname field in
  if Field.serialize field then
    match Field.rel field with
    | None =>
        if negb (contains excludes attname) then
          if is_empty fields || contains fields attname then
            handle_field obj field self
          else Ok self
        else Ok self
    | Some _ =>
        if negb (contains excludes (drop_last3 attname)) then
          if is_empty fields || contains fields (drop_last3 attname) then
            handle_fk_field obj field self
          else Ok self
        else Ok self
    end
  else Ok self.

(** The body of [for field in obj._meta.many_to_many]. *)
Definition m2m_field_step (obj : instance) (field : Field.t) (self : S)
  : result S :=
  if Field.serialize field then
    if negb (contains excludes (Field.attname field)) then
      if is_empty fields || contains fields (Field.attname field) then
        handle_m2m_field obj field self
      else Ok self
    else Ok self
  else Ok self.

(** The body of [for ro in related_fk_objects]. *)
Definition related_fk_step (obj : instance) (ro : Relation.t) (self : S)
  : result S :=
  let field_name := Relation.get_accessor_name ro in
  if negb (contains excludes field_name) then
    handle_related_fk_field obj field_name self
  else Ok self.

(** The body of [for ro in related_m2m_objects]. *)
Definition related_m2m_step (obj : instance) (ro : Relation.t) (self : S)
  : result S :=
  let field_name := Relation.get_accessor_name ro in
  if negb (contains excludes field_name) then
    handle_related_m2m_field obj field_name self
  else Ok self.

(** The body of [for obj in queryset]. The first [obj._meta] raises on
    anything that is not a model instance. *)
Definition serialize_object (o : pyval) (self : S) : result S :=
  self <- start_object o self ;;
  obj <- as_model db o ;;
  self <- for_each (local_field_step obj)
            (Meta.local_fields (_meta obj)) self ;;
  self <- for_each (m2m_field_step obj)
            (Meta.many_to_many (_meta obj)) self ;;
  self <- for_each (related_fk_step obj)
            (related_fk_objects (_meta obj)) self ;;
  self <- for_each (related_m2m_step obj)
            (related_m2m_objects (_meta obj)) self ;;
  self <- for_each (handle_extra_field obj) extras self ;;
  end_object obj self.

(** [Serializer.serialize], after the options have been popped into
    [self.fields], [self.excludes] and [self.extras]. *)
Definition serialize (self : S) (queryset : list pyval) : result Out :=
  self <- start_serialization self ;;
  self <- for_each serialize_object queryset self ;;
  self <- end_serialization self ;;
  Ok (getvalue self).
End Serialize.

End Base.

(** ** python.py: the field-value resolver *)

Module Python.

(** The instance attributes the hooks work on. [_fields] and [_extras]
    are None or a dict. *)
Record state : Type := State {
  _fields : value;
  _extras : value;
  objects : list value
}.

(** [Serializer()] *)
Definition init : state := State (VScalar PyNone) (VScalar PyNone) [].

(** [self._fields[k] = v] *)
Definition set_field (self : state) (k : string) (v : value) : result state :=
  fs <- setitem (_fields self) k v ;;
  Ok (State fs (_extras self) (objects self)).

(** [self._extras[k] = v] *)
Definition set_extra (self : state) (k : string) (v : value) : result state :=
  xs <- setitem (_extras self) k v ;;
  Ok (State (_fields self) xs (objects self)).

Section Self.
Variable db : ref -> instance.
(** [self.relations] and [self.use_natural_keys] *)
Variable relations : relations_t.
Variable use_natural_keys : bool.
(** [nested fname] is [Serializer().serialize] with the options the
    handlers compute for [fname]: [self.relations[fname]] when
    [self.relations] is a dict and that value is a dict too, [{}]
    otherwise. *)
Variable nested : string -> serializer.

Definition start_serialization (self : state) : result state :=
  Ok (State (VScalar PyNone) (VScalar PyNone) []).

Definition end_serialization (self : state) : result state :=
  Ok self.

Definition start_object (obj : pyval) (self : state) : result state :=
  Ok (State (VDict []) (VDict []) (objects self)).

Definition end_object (obj : instance) (self : state) : result state :=
  let record :=
    [ ("model", VScalar (PyStr (Meta.label (_meta obj))));
      ("pk", VScalar (smart_str db (_get_pk_val obj)));
      ("fields", _fields self) ] in
  let record :=
    if truthy (_extras self)
    then dict_set record "extras" (_extras self)
    else record in
  Ok (State (VScalar PyNone) (VScalar PyNone)
            (objects self ++ [VDict record])).

Definition handle_field (obj : instance) (field : Field.t) (self : state)
  : result state :=
  value <- _get_val_from_obj field obj ;;
  if is_protected_type value then
    set_field self (Field.name field) (VScalar value)
  else
    set_field self (Field.name field)
      (VScalar (PyStr (Field.value_to_string field value))).

Definition handle_fk_field (obj : instance) (field : Field.t) (self : state)
  : result state :=
  let fname := Field.name field in
  related <- getattr obj fname ;;
  if negb (is_none related) then
    if rel_contains relations fname then
      recs <- nested fname [related] ;;
      rec <- first recs ;;
      set_field self fname rec
    else
      related <-
        (if use_natural_keys && hasattr_val db related "natural_key" then
           m <- getattr_val db related "natural_key" ;;
           call0 m
         else
           rel <- field_rel field ;;
           field_name <- Rel.field_name rel ;;
           target <- as_model db related ;;
           if String.eqb field_name (Meta.pk_name (_meta target)) then
             Ok (_get_pk_val target)
           else
             v <- getattr target field_name ;;
             Ok (smart_str db v)) ;;
      set_field self fname (VScalar related)
  else
    set_field self fname (VScalar (smart_str db related)).

Definition handle_m2m_field (obj : instance) (field : Field.t) (self : state)
  : result state :=
  rel <- field_rel field ;;
  match rel with
  | Rel.ManyToOne _ => Raise AttributeError
  | Rel.ManyToMany through_auto_created to_has_natural_key =>
      if through_auto_created then
        let fname := Field.name field in
        if rel_contains relations fname then
          manager <- getattr obj fname ;;
          items <- iterator manager ;;
          recs <- comprehension
                    (fun related =>
                       recs <- nested fname [related] ;; first recs)
                    items ;;
          set_field self fname (VList recs)
        else
          let m2m_value :=
            if use_natural_keys && to_has_natural_key then
              fun value =>
                m <- getattr_val db value "natural_key" ;;
                call0 m
            else
              fun value =>
                target <- as_model db value ;;
                Ok (smart_str db (_get_pk_val target)) in
          manager <- getattr obj fname ;;
          items <- iterator manager ;;
          vals <- comprehension m2m_value items ;;
          set_field self fname (VList (map VScalar vals))
      else Ok self
  end.

Definition handle_extra_field (obj : instance) (field : string) (self : state)
  : result state :=
  if hasattr obj field then
    extra <- getattr obj field ;;
    if callable extra then
      ret <- call0 extra ;;
      set_extra self field (VScalar (smart_str db ret))
    else
      set_extra self field (VScalar (smart_str db extra))
  else Ok self.

Definition handle_related_m2m_field (obj : instance) (field_name : string)
  (self : state) : result state :=
  let fname := field_name in
  if rel_contains relations field_name then
    manager <- getattr obj fname ;;
    items <- iterator manager ;;
    recs <- comprehension
              (fun related => recs <- nested field_name [related] ;; first recs)
              items ;;
    set_field self fname (VList recs)
  else Ok self.

Definition handle_related_fk_field (obj : instance) (field_name : string)
  (self : state) : result state :=
  let fname := field_name in
  related <- getattr obj fname ;;
  if negb (is_none related) then
    if rel_contains relations field_name then
      if is_manager related then
        queryset <- iterator related ;;
        recs <- nested field_name queryset ;;
        set_field self fname (VList recs)
      else
        recs <- nested field_name [related] ;;
        rec <- first recs ;;
        set_field self fname rec
    else Ok self
  else
    set_field self fname (VScalar (smart_str db related)).

Definition getvalue (self : state) : list value := objects self.

(** The class: [base.Serializer] with its hooks overridden. *)
#[local] Instance Serializer : Base.Hooks state (list value) := {|
  Base.start_serialization := start_serialization;
  Base.end_serialization := end_serialization;
  Base.start_object := start_object;
  Base.end_object := end_object;
  Base.handle_field := handle_field;
  Base.handle_fk_field := handle_fk_field;
  Base.handle_m2m_field := handle_m2m_field;
  Base.handle_related_fk_field := handle_related_fk_field;
  Base.handle_related_m2m_field := handle_related_m2m_field;
  Base.handle_extra_field := handle_extra_field;
  Base.getvalue := getvalue
|}.
End Self.

End Python.

(** ** Tying the knot: nested serializers *)

(** [Serializer().serialize(queryset, fields=..., excludes=..., ...)] for a
    resolver whose nested serializers are given. *)
Definition serialize_with (db : ref -> instance) (relations : relations_t)
  (nested : string -> serializer) (fields excludes extras : list string)
  (use_natural_keys : bool) : serializer :=
  Base.serialize (hooks := Python.Serializer db relations use_natural_keys nested)
    db fields excludes extras Python.init.

(** [Serializer().serialize(queryset)]: with no relations to expand, no
    nested serializer is ever asked for. *)
Definition serialize_default (db : ref -> instance) : serializer :=
  serialize_with db (RelList []) (fun _ _ => Raise KeyError) [] [] [] false.

Section Knot.
Variable db : ref -> instance.

(** [serialize] recurses into the nested option dicts of [relations]:
    [nested_of relations fname] is the serializer run for an expanded
    relation [fname], with [options = {}] unless [relations] is a dict
    whose value at [fname] is a dict. [self.relations[fname]] raises
    KeyError on a missing key. *)
Fixpoint serialize (o : options) {struct o} : serializer :=
  match o with
  | Options fields excludes relations extras use_natural_keys =>
      serialize_with db relations (nested_of relations)
        fields excludes extras use_natural_keys
  end
with nested_of (relations : relations_t) {struct relations}
  : string -> serializer :=
  match relations with
  | RelList _ => fun _ => serialize_default db
  | RelDict d => nested_in d
  end
with nested_in (d : rel_items) {struct d} : string -> serializer :=
  match d with
  | RelNil => fun _ _ => Raise KeyError
  | RelCons k v rest =>
      fun fname =>
        if String.eqb k fname then nested_for v else nested_in rest fname
  end
with nested_for (v : rel_value) {struct v} : serializer :=
  match v with
  | IsDict o => serialize o
  | NotDict => serialize_default db
  end.
End Knot.

(** The options a handler passes to the nested serializer of [fname]
    (python.py, the lines after [options = {}]). *)
Definition nested_options (relations : relations_t) (fname : string) : options :=
  match relations with
  | RelList _ => no_options
  | RelDict d =>
      match rel_lookup d fname with
      | Some (IsDict o) => o
      | _ => no_options
      end
  end.

(** ** What the statements read off a result *)

(** [record["fields"][n]], [None] when the key is missing. *)
Definition record_field (rec : value) (n : string) : option value :=
  match getitem rec "fields" with
  | Some fs => getitem fs n
  | None => None
  end.

(** What a handler may change: it leaves the finished records alone and
    writes under no key of [_fields] other than [k]. *)
Definition writes_at (k : string) (st st' : Python.state) : Prop :=
  Python.objects st' = Python.objects st
  /\ forall k', k' <> k ->
       getitem (Python._fields st') k' = getitem (Python._fields st) k'.

(** No field has been stored under [N] yet. *)
Definition absent (N : string) (st : Python.state) : Prop :=
  getitem (Python._fields st) N = None.

(** The name the orchestrator tests against [fields] and [excludes] before
    it dispatches a local field. *)
Definition tested_name (f : Field.t) : string :=
  match Field.rel f with
  | None => Field.attname f
  | Some _ => drop_last3 (Field.attname f)
  end.

(** The test every forward field goes through: not excluded, and in the
    allow-list when there is one. *)
Definition selected (fields excludes : list string) (n : string) : bool :=
  negb (contains excludes n) && (is_empty fields || contains fields n).

(** Whether the orchestrator dispatches a local field, or a many-to-many
    field, to its handler. *)
Definition local_dispatched (fields excludes : list string) (f : Field.t) : bool :=
  Field.serialize f && selected fields excludes (tested_name f).

Definition m2m_dispatched (fields excludes : list string) (f : Field.t) : bool :=
  Field.serialize f && selected fields excludes (Field.attname f).

(** A sufficient condition for no handler to store anything under [N]
    while [obj] is serialized: every forward field stored under [N] is
    filtered out or is a many-to-many field with a through model of its
    own, and every reverse relation whose accessor is [N] is excluded or
    left unexpanded (with, for a reverse foreign key, a related value that
    is not None). *)
Definition never_stored (fields excludes : list string) (relations : relations_t)
  (obj : instance) (N : string) : Prop :=
  (forall f, In f (Meta.local_fields (_meta obj)) -> Field.name f = N ->
     local_dispatched fields excludes f = false)
  /\ (forall f, In f (Meta.many_to_many (_meta obj)) -> Field.name f = N ->
       m2m_dispatched fields excludes f = false
       \/ exists k, Field.rel f = Some (Rel.ManyToMany false k))
  /\ (forall ro, In ro (Base.related_fk_objects (_meta obj)) ->
       Relation.get_accessor_name ro = N ->
       contains excludes N = true
       \/ (rel_contains relations N = false /\ getattr obj N <> Ok PyNone))
  /\ (forall ro, In ro (Base.related_m2m_objects (_meta obj)) ->
       Relation.get_accessor_name ro = N ->
       contains excludes N = true \/ rel_contains relations N = false).

(** The framework's naming of fields: the attribute name of a foreign key
    is its name followed by [_id], that of any other field is its name. *)
Definition local_field_named (f : Field.t) : bool :=
  match Field.rel f with
  | None => String.eqb (Field.attname f) (Field.name f)
  | Some _ => String.eqb (Field.attname f) (Field.name f ++ "_id")
  end.

Definition m2m_field_named (f : Field.t) : bool :=
  String.eqb (Field.attname f) (Field.name f).

Definition meta_named (m : Meta.t) : bool :=
  forallb local_field_named (Meta.local_fields m)
  && forallb m2m_field_named (Meta.many_to_many m).

(** The names under which the forward fields of a model are stored. *)
Definition forward_names (m : Meta.t) : list string :=
  map Field.name (Meta.local_fields m) ++ map Field.name (Meta.many_to_many m).

(** The accessor names of the reverse relations of a model. *)
Definition reverse_names (m : Meta.t) : list string :=
  map Relation.get_accessor_name (Base.related_fk_objects m)
  ++ map Relation.get_accessor_name (Base.related_m2m_objects m).

(** No two fields or relations of a model are stored under one name. *)
Definition distinct_names (m : Meta.t) : Prop :=
  NoDup (forward_names m ++ reverse_names m).

(** ** A recording serializer *)

(** A subclass of [Base.Serializer] whose hooks only record that they were
    called: it shows which handler the orchestrator dispatches to. *)
Module Spy.

Inductive call : Type :=
| StartObject
| EndObject
| HandleField (field : Field.t)
| HandleFk (field : Field.t)
| HandleM2m (field : Field.t)
| HandleRelatedFk (field_name : string)
| HandleRelatedM2m (field_name : string)
| HandleExtra (extra : string).

Definition record (c : call) (self : list call) : result (list call) :=
  Ok (self ++ [c]).

#[local] Instance Recorder : Base.Hooks (list call) (list call) := {|
  Base.start_serialization := fun self => Ok self;
  Base.end_serialization := fun self => Ok self;
  Base.start_object := fun _ => record StartObject;
  Base.end_object := fun _ => record EndObject;
  Base.handle_field := fun _ field => record (HandleField field);
  Base.handle_fk_field := fun _ field => record (HandleFk field);
  Base.handle_m2m_field := fun _ field => record (HandleM2m field);
  Base.handle_related_fk_field := fun _ n => record (HandleRelatedFk n);
  Base.handle_related_m2m_field := fun _ n => record (HandleRelatedM2m n);
  Base.handle_extra_field := fun _ n => record (HandleExtra n);
  Base.getvalue := fun self => self
|}.

(** What each iteration of the orchestrator is expected to record. *)
Definition local_calls (fields excludes : list string) (f : Field.t) : list call :=
  if local_dispatched fields excludes f then
    match Field.rel f with
    | None => [HandleField f]
    | Some _ => [HandleFk f]
    end
  else [].

Definition m2m_calls (fields excludes : list string) (f : Field.t) : list call :=
  if m2m_dispatched fields excludes f then [HandleM2m f] else [].

Definition related_fk_calls (excludes : list string) (ro : Relation.t) : list call :=
  if contains excludes (Relation.get_accessor_name ro) then []
  else [HandleRelatedFk (Relation.get_accessor_name ro)].

Definition related_m2m_calls (excludes : list string) (ro : Relation.t) : list call :=
  if contains excludes (Relation.get_accessor_name ro) then []
  else [HandleRelatedM2m (Relation.get_accessor_name ro)].

Definition object_calls (fields excludes extras : list string) (m : Meta.t)
  : list call :=
  [StartObject]
  ++ flat_map (local_calls fields excludes) (Meta.local_fields m)
  ++ flat_map (m2m_calls fields excludes) (Meta.many_to_many m)
  ++ flat_map (related_fk_calls excludes) (Base.related_fk_objects m)
  ++ flat_map (related_m2m_calls excludes) (Base.related_m2m_objects m)
  ++ map HandleExtra extras
  ++ [EndObject].

(** The calls made while serializing [queryset]. *)
Definition dispatched (db : ref -> instance) (fields excludes extras : list string)
  (queryset : list pyval) : result (list call) :=
  Base.serialize (hooks := Recorder) db fields excludes extras [] queryset.

End Spy.

(** ** A small library: authors, books, publishers and tags *)

Module Library.

(** How the field classes of the example render a value. *)
Definition text (v : pyval) : string :=
  match v with
  | PyStr s => s
  | PyObject repr => repr
  | _ => ""
  end.

Definition primary_key (n : string) : Field.t := Field.Make n n false None text.
Definition column (n : string) : Field.t := Field.Make n n true None text.
Definition foreign_key (n remote : string) : Field.t :=
  Field.Make (n ++ "_id") n true (Some (Rel.ManyToOne remote)) text.
Definition many_to_many (n : string) (through_auto_created : bool) : Field.t :=
  Field.Make n n true (Some (Rel.ManyToMany through_auto_created false)) text.

Definition reverse_fk (accessor : string) : Relation.t :=
  Relation.Make true false false true false accessor.
Definition reverse_one_to_one (accessor : string) : Relation.t :=
  Relation.Make false true false true false accessor.
Definition reverse_m2m (accessor : string) : Relation.t :=
  Relation.Make false false true true false accessor.

Definition author_meta : Meta.t :=
  Meta.Make "app.author" "id"
    [primary_key "id"; column "name"; column "born"]
    []
    None None
    (fun _ => [reverse_fk "book_set"; reverse_one_to_one "profile"]).

Definition book_meta : Meta.t :=
  Meta.Make "app.book" "id"
    [primary_key "id"; column "title";
     foreign_key "author" "id"; foreign_key "publisher" "uuid"]
    [many_to_many "tags" true; many_to_many "reviewers" false]
    None None
    (fun _ => []).

Definition publisher_meta : Meta.t :=
  Meta.Make "app.publisher" "uuid"
    [primary_key "uuid"; column "name"]
    []
    None None
    (fun _ => [reverse_fk "book_set"]).

Definition tag_meta : Meta.t :=
  Meta.Make "app.tag" "id"
    [primary_key "id"; column "label"]
    []
    None None
    (fun _ => [reverse_m2m "book_set"]).

Definition profile_meta : Meta.t :=
  Meta.Make "app.profile" "id"
    [primary_key "id"; foreign_key "author" "id"]
    []
    None None
    (fun _ => []).

Definition alice_profile : instance :=
  ModelInstance profile_meta (PyInt 40)
    [("id", PyInt 40); ("author_id", PyInt 1); ("author", PyModel 1)]
    "Alice's profile".

Definition alice : instance :=
  ModelInstance author_meta (PyInt 1)
    [("id", PyInt 1); ("name", PyStr "Alice");
     ("born", PyProtected "1920-01-02");
     ("book_set", PyManager "app.Book.None" [10; 11]);
     ("profile", PyModel 40);
     ("full_name", PyCallable "<bound method Author.full_name>" (PyStr "Alice A."));
     ("book_count", PyCallable "<bound method Author.book_count>" (PyInt 2));
     ("nickname", PyStr "Al")]
    "Alice".

Definition ace : instance :=
  ModelInstance publisher_meta (PyObject "6fa459ea-ee8a-3ca4-894e-db77e160355e")
    [("uuid", PyObject "6fa459ea-ee8a-3ca4-894e-db77e160355e");
     ("name", PyStr "Ace");
     ("book_set", PyManager "app.Book.None" [10])]
    "Ace".

Definition book_x : instance :=
  ModelInstance book_meta (PyInt 10)
    [("id", PyInt 10); ("title", PyStr "X");
     ("author_id", PyInt 1); ("author", PyModel 1);
     ("publisher_id", PyObject "6fa459ea-ee8a-3ca4-894e-db77e160355e");
     ("publisher", PyModel 20);
     ("tags", PyManager "app.Tag.None" [31; 30]);
     ("reviewers", PyManager "app.Author.None" [1])]
    "X".

Definition book_y : instance :=
  ModelInstance book_meta (PyInt 11)
    [("id", PyInt 11); ("title", PyStr "Y");
     ("author_id", PyInt 1); ("author", PyModel 1);
     ("publisher_id", PyNone); ("publisher", PyNone);
     ("tags", PyManager "app.Tag.None" []);
     ("reviewers", PyManager "app.Author.None" [])]
    "Y".

Definition tag (pk : Z) (label : string) (books : list ref) : instance :=
  ModelInstance tag_meta (PyInt pk)
    [("id", PyInt pk); ("label", PyStr label);
     ("book_set", PyManager "app.Book.None" books)]
    label.

(** The store: 1 is Alice, 10 and 11 her books, 20 the publisher of the
    first, 30 and 31 its tags, 40 her profile. *)
Definition db (r : ref) : instance :=
  match r with
  | 1 => alice
  | 10 => book_x
  | 11 => book_y
  | 20 => ace
  | 40 => alice_profile
  | 30 => tag 30 "fiction" [10]
  | _ => tag 31 "classic" [10]
  end.

(** Options of the examples. *)
Definition allow_and_deny : options :=
  Options ["title"; "author"; "tags"] ["author"; "tags"]
    (RelList ["author"]) [] false.

Definition allow_and_deny_direct : options :=
  Options ["name"; "born"] ["born"] (RelList []) [] false.

Definition expand_reviewers : options :=
  Options ["title"; "reviewers"] [] (RelList ["reviewers"]) [] false.

Definition expand_author : options :=
  Options [] []
    (RelDict
       (RelCons "author" (IsDict (Options ["name"] [] (RelList []) [] false))
          (RelCons "tags" NotDict RelNil)))
    [] false.

End Library.

(** ** What the further statements read off a result *)

(** [record["extras"][n]], [None] when either key is missing. *)
Definition record_extra (rec : value) (n : string) : option value :=
  match getitem rec "extras" with
  | Some xs => getitem xs n
  | None => None
  end.

(** What [handle_extra_field] stores for the name [n] of an object: nothing
    when the object has no such attribute, what [smart_str] makes of the
    result of the call when the attribute is callable, and of the attribute
    otherwise. *)
Definition extra_value (db : ref -> instance) (obj : instance) (n : string)
  : option value :=
  match assoc (attrs obj) n with
  | None => None
  | Some (PyCallable _ ret) => Some (VScalar (smart_str db ret))
  | Some v => Some (VScalar (smart_str db v))
  end.

(** What [handle_field] stores for a value read from an object. *)
Definition field_value (f : Field.t) (v : pyval) : value :=
  if is_protected_type v then VScalar v
  else VScalar (PyStr (Field.value_to_string f v)).

(** The same state with other finished records. *)
Definition with_objects (objs : list value) (st : Python.state) : Python.state :=
  Python.State (Python._fields st) (Python._extras st) objs.

Definition lift_objects (objs : list value) (r : result Python.state)
  : result Python.state :=
  match r with
  | Ok st => Ok (with_objects objs st)
  | Raise e => Raise e
  end.

Definition opt_fields (o : options) : list string :=
  match o with Options f _ _ _ _ => f end.

Definition opt_extras (o : options) : list string :=
  match o with Options _ _ _ x _ => x end.

(** The library again, with a second author who has no profile to read
    and a tag with no label to read. *)
Module Orphans.

Definition bob : instance :=
  ModelInstance Library.author_meta (PyInt 2)
    [("id", PyInt 2); ("name", PyStr "Bob"); ("born", PyNone);
     ("book_set", PyManager "app.Book.None" [])]
    "Bob".

(** A tag whose [label] attribute cannot be read. *)
Definition untitled : instance :=
  ModelInstance Library.tag_meta (PyInt 30)
    [("id", PyInt 30); ("book_set", PyManager "app.Book.None" [10])]
    "?".

Definition db (r : ref) : instance :=
  match r with
  | 2 => bob
  | 30 => untitled
  | _ => Library.db r
  end.

End Orphans.

(** * Properties *)

(** ** Lists, dicts and loops *)

Lemma contains_In (l : list string) (n : string) :
  contains l n = true <-> In n l.
Proof.
  unfold contains. rewrite existsb_exists. split.
  - intros (x & Hx & E). apply String.eqb_eq in E. now subst.
  - intros H. exists n. split; [assumption | apply String.eqb_refl].
Qed.

Lemma dict_get_set_same (d : dict) (k : string) (v : value) :
  dict_get (dict_set d k v) k = Some v.
Proof.
  induction d as [|[k' v'] tl IH]; simpl.
  - now rewrite String.eqb_refl.
  - destruct (String.eqb k' k) eqn:E; simpl; rewrite E; auto.
Qed.

Lemma dict_get_set_other (d : dict) (k k' : string) (v : value) :
  k' <> k -> dict_get (dict_set d k v) k' = dict_get d k'.
Proof.
  intros Hne. induction d as [|[k0 v0] tl IH]; simpl.
  - destruct (String.eqb k k') eqn:E; [|reflexivity].
    apply String.eqb_eq in E. congruence.
  - destruct (String.eqb k0 k) eqn:E; simpl.
    + apply String.eqb_eq in E. subst k0.
      destruct (String.eqb k k') eqn:E'; [|reflexivity].
      apply String.eqb_eq in E'. congruence.
    + now rewrite IH.
Qed.

Lemma bind_Ok {A B : Type} (m : result A) (k : A -> result B) (b : B) :
  bind m k = Ok b -> exists a, m = Ok a /\ k a = Ok b.
Proof.
  destruct m as [a|e]; simpl; [eauto | discriminate].
Qed.

(** Splits every successful [bind] among the hypotheses. *)
Ltac unbind :=
  repeat match goal with
  | H : bind _ _ = Ok _ |- _ =>
      let a := fresh "a" in
      let E := fresh "E" in
      apply bind_Ok in H; destruct H as (a & E & H)
  | H : Ok _ = Ok _ |- _ => injection H as H
  | H : Raise _ = Ok _ |- _ => discriminate H
  end.

(** A property kept by every iteration is kept by the loop. *)
Lemma for_each_invariant {A S : Type} (P : S -> Prop)
  (body : A -> S -> result S) (l : list A) :
  (forall x st st', In x l -> P st -> body x st = Ok st' -> P st') ->
  forall st st', P st -> for_each body l st = Ok st' -> P st'.
Proof.
  induction l as [|x tl IH]; simpl; intros Hbody st st' HP Hrun.
  - now injection Hrun as <-.
  - unbind. eapply IH; [ | | exact Hrun].
    + intros y s s' Hy. apply Hbody. now right.
    + eapply Hbody; [now left | exact HP | exact E].
Qed.

(** ** What each handler writes *)

Lemma writes_at_refl (k : string) (st : Python.state) : writes_at k st st.
Proof. split; auto. Qed.

Lemma set_field_Ok (st st' : Python.state) (k : string) (v : value) :
  Python.set_field st k v = Ok st' ->
  exists d, Python._fields st = VDict d
            /\ st' = Python.State (VDict (dict_set d k v))
                       (Python._extras st) (Python.objects st).
Proof.
  unfold Python.set_field, setitem. intros H.
  destruct (Python._fields st) as [s|d|l]; simpl in H; try discriminate.
  injection H as <-. eauto.
Qed.

Lemma set_field_writes (st st' : Python.state) (k : string) (v : value) :
  Python.set_field st k v = Ok st' -> writes_at k st st'.
Proof.
  intros H. apply set_field_Ok in H. destruct H as (d & Hd & ->).
  split; simpl; [reflexivity|].
  intros k' Hne. rewrite Hd. simpl. now apply dict_get_set_other.
Qed.

Lemma set_extra_fields (st st' : Python.state) (k : string) (v : value) :
  Python.set_extra st k v = Ok st' ->
  Python._fields st' = Python._fields st /\ Python.objects st' = Python.objects st.
Proof.
  unfold Python.set_extra. intros H. unbind. subst st'. simpl. auto.
Qed.

(** Case analysis on the conditionals of a handler that returned. *)
Ltac handler_cases :=
  repeat (unbind ||
    match goal with
    | H : (if ?c then _ else _) = Ok _ |- _ => destruct c eqn:?
    | H : match ?x with _ => _ end = Ok _ |- _ => destruct x eqn:?
    end).

Ltac frame :=
  handler_cases;
  match goal with
  | H : Python.set_field _ _ _ = Ok _ |- _ => exact (set_field_writes _ _ _ _ H)
  | H : ?st = ?st' |- writes_at _ ?st ?st' => rewrite H; apply writes_at_refl
  end.

Section Frames.
Variable db : ref -> instance.
Variable relations : relations_t.
Variable use_natural_keys : bool.
Variable nested : string -> serializer.

Lemma handle_field_writes obj field st st' :
  Python.handle_field obj field st = Ok st' ->
  writes_at (Field.name field) st st'.
Proof. unfold Python.handle_field. intros H. frame. Qed.

Lemma handle_fk_field_writes obj field st st' :
  Python.handle_fk_field db relations use_natural_keys nested obj field st
  = Ok st' ->
  writes_at (Field.name field) st st'.
Proof. unfold Python.handle_fk_field. intros H. frame. Qed.

Lemma handle_m2m_field_writes obj field st st' :
  Python.handle_m2m_field db relations use_natural_keys nested obj field st
  = Ok st' ->
  writes_at (Field.name field) st st'.
Proof. unfold Python.handle_m2m_field. intros H. frame. Qed.

Lemma handle_related_fk_field_writes obj field_name st st' :
  Python.handle_related_fk_field db relations nested obj field_name st
  = Ok st' ->
  writes_at field_name st st'.
Proof. unfold Python.handle_related_fk_field. intros H. frame. Qed.

Lemma handle_related_m2m_field_writes obj field_name st st' :
  Python.handle_related_m2m_field relations nested obj field_name st
  = Ok st' ->
  writes_at field_name st st'.
Proof. unfold Python.handle_related_m2m_field. intros H. frame. Qed.

Lemma handle_extra_field_fields obj extra st st' :
  Python.handle_extra_field db obj extra st = Ok st' ->
  Python._fields st' = Python._fields st
  /\ Python.objects st' = Python.objects st.
Proof.
  unfold Python.handle_extra_field. intros H. handler_cases;
    try (eapply set_extra_fields; eassumption).
  subst. auto.
Qed.
End Frames.

(** ** Dispatch *)

Section Dispatch.
Context {S Out : Type} {hooks : Base.Hooks S Out}.
Variables fields excludes : list string.

Lemma local_field_step_eq obj f (st : S) :
  Base.local_field_step fields excludes obj f st
  = if local_dispatched fields excludes f then
      match Field.rel f with
      | None => Base.handle_field obj f st
      | Some _ => Base.handle_fk_field obj f st
      end
    else Ok st.
Proof.
  unfold Base.local_field_step, local_dispatched, selected, tested_name.
  destruct (Field.serialize f); simpl; [|reflexivity].
  destruct (Field.rel f); simpl.
  - destruct (contains excludes (drop_last3 (Field.attname f))); simpl;
      [reflexivity|].
    now destruct (is_empty fields || contains fields (drop_last3 (Field.attname f))).
  - destruct (contains excludes (Field.attname f)); simpl; [reflexivity|].
    now destruct (is_empty fields || contains fields (Field.attname f)).
Qed.

Lemma m2m_field_step_eq obj f (st : S) :
  Base.m2m_field_step fields excludes obj f st
  = if m2m_dispatched fields excludes f then Base.handle_m2m_field obj f st
    else Ok st.
Proof.
  unfold Base.m2m_field_step, m2m_dispatched, selected.
  destruct (Field.serialize f); simpl; [|reflexivity].
  destruct (contains excludes (Field.attname f)); simpl; [reflexivity|].
  now destruct (is_empty fields || contains fields (Field.attname f)).
Qed.
End Dispatch.

(** ** From the loops to the records *)

Lemma handle_related_fk_field_skips db relations nested obj n st st' :
  rel_contains relations n = false ->
  getattr obj n <> Ok PyNone ->
  Python.handle_related_fk_field db relations nested obj n st = Ok st' ->
  st' = st.
Proof.
  unfold Python.handle_related_fk_field. intros Hrel Hnone H.
  rewrite Hrel in H. unbind.
  destruct a; simpl in H; try (now injection H). congruence.
Qed.

Lemma handle_related_m2m_field_skips relations nested obj n st :
  rel_contains relations n = false ->
  Python.handle_related_m2m_field relations nested obj n st = Ok st.
Proof.
  unfold Python.handle_related_m2m_field. now intros ->.
Qed.

Lemma handle_m2m_field_skips db relations nk nested obj f k st :
  Field.rel f = Some (Rel.ManyToMany false k) ->
  Python.handle_m2m_field db relations nk nested obj f st = Ok st.
Proof.
  unfold Python.handle_m2m_field, field_rel. now intros ->.
Qed.

Lemma absent_writes_at N k st st' :
  k <> N -> absent N st -> writes_at k st st' -> absent N st'.
Proof.
  unfold absent. intros Hne Hf [_ Hf']. rewrite Hf' by congruence. exact Hf.
Qed.

Section Records.
Variable db : ref -> instance.
Variable relations : relations_t.
Variable use_natural_keys : bool.
Variable nested : string -> serializer.
Variables fields excludes extras : list string.

Let hooks := Python.Serializer db relations use_natural_keys nested.

(** No iteration touches the finished records. *)
Lemma local_field_step_objects obj f st st' :
  Base.local_field_step (hooks := hooks) fields excludes obj f st = Ok st' ->
  Python.objects st' = Python.objects st.
Proof.
  rewrite local_field_step_eq. intros H.
  destruct (local_dispatched fields excludes f); [|now injection H as <-].
  destruct (Field.rel f); simpl in H.
  - apply handle_fk_field_writes in H; exact (proj1 H).
  - apply handle_field_writes in H; exact (proj1 H).
Qed.

Lemma m2m_field_step_objects obj f st st' :
  Base.m2m_field_step (hooks := hooks) fields excludes obj f st = Ok st' ->
  Python.objects st' = Python.objects st.
Proof.
  rewrite m2m_field_step_eq. intros H.
  destruct (m2m_dispatched fields excludes f); [|now injection H as <-].
  simpl in H. apply handle_m2m_field_writes in H; exact (proj1 H).
Qed.

Lemma related_fk_step_objects obj ro st st' :
  Base.related_fk_step (hooks := hooks) excludes obj ro st = Ok st' ->
  Python.objects st' = Python.objects st.
Proof.
  unfold Base.related_fk_step. intros H.
  destruct (negb _); [|now injection H as <-].
  simpl in H. apply handle_related_fk_field_writes in H; exact (proj1 H).
Qed.

Lemma related_m2m_step_objects obj ro st st' :
  Base.related_m2m_step (hooks := hooks) excludes obj ro st = Ok st' ->
  Python.objects st' = Python.objects st.
Proof.
  unfold Base.related_m2m_step. intros H.
  destruct (negb _); [|now injection H as <-].
  simpl in H. apply handle_related_m2m_field_writes in H; exact (proj1 H).
Qed.

(** Under [never_stored], no iteration stores under [N]. *)
Lemma local_field_step_absent N obj f st st' :
  (Field.name f = N -> local_dispatched fields excludes f = false) ->
  absent N st ->
  Base.local_field_step (hooks := hooks) fields excludes obj f st = Ok st' ->
  absent N st'.
Proof.
  rewrite local_field_step_eq. intros Hn Ha H.
  destruct (local_dispatched fields excludes f) eqn:D;
    [|now injection H as <-].
  assert (Hne : Field.name f <> N).
  { intros E. apply Hn in E. congruence. }
  apply (absent_writes_at N _ st st' Hne Ha).
  destruct (Field.rel f); simpl in H.
  - now apply handle_fk_field_writes in H.
  - now apply handle_field_writes in H.
Qed.

Lemma m2m_field_step_absent N obj f st st' :
  (Field.name f = N ->
   m2m_dispatched fields excludes f = false
   \/ exists k, Field.rel f = Some (Rel.ManyToMany false k)) ->
  absent N st ->
  Base.m2m_field_step (hooks := hooks) fields excludes obj f st = Ok st' ->
  absent N st'.
Proof.
  rewrite m2m_field_step_eq. intros Hn Ha H.
  destruct (m2m_dispatched fields excludes f) eqn:D;
    [|now injection H as <-].
  simpl in H.
  destruct (String.eqb (Field.name f) N) eqn:E.
  - apply String.eqb_eq in E. destruct (Hn E) as [C|(k & Hk)];
      [discriminate|].
    rewrite (handle_m2m_field_skips _ _ _ _ _ _ _ _ Hk) in H.
    now injection H as <-.
  - apply String.eqb_neq in E.
    apply (absent_writes_at N _ st st' E Ha).
    now apply handle_m2m_field_writes in H.
Qed.

Lemma related_fk_step_absent N obj ro st st' :
  (Relation.get_accessor_name ro = N ->
   contains excludes N = true
   \/ (rel_contains relations N = false /\ getattr obj N <> Ok PyNone)) ->
  absent N st ->
  Base.related_fk_step (hooks := hooks) excludes obj ro st = Ok st' ->
  absent N st'.
Proof.
  unfold Base.related_fk_step. intros Hn Ha H.
  destruct (contains excludes (Relation.get_accessor_name ro)) eqn:X;
    simpl in H; [now injection H as <-|].
  destruct (String.eqb (Relation.get_accessor_name ro) N) eqn:E.
  - apply String.eqb_eq in E. destruct (Hn E) as [C|[Hrel Hnone]];
      [congruence|].
    rewrite E in H.
    now rewrite (handle_related_fk_field_skips _ _ _ _ _ _ _ Hrel Hnone H).
  - apply String.eqb_neq in E.
    apply (absent_writes_at N _ st st' E Ha).
    now apply handle_related_fk_field_writes in H.
Qed.

Lemma related_m2m_step_absent N obj ro st st' :
  (Relation.get_accessor_name ro = N ->
   contains excludes N = true \/ rel_contains relations N = false) ->
  absent N st ->
  Base.related_m2m_step (hooks := hooks) excludes obj ro st = Ok st' ->
  absent N st'.
Proof.
  unfold Base.related_m2m_step. intros Hn Ha H.
  destruct (contains excludes (Relation.get_accessor_name ro)) eqn:X;
    simpl in H; [now injection H as <-|].
  destruct (String.eqb (Relation.get_accessor_name ro) N) eqn:E.
  - apply String.eqb_eq in E. destruct (Hn E) as [C|Hrel]; [congruence|].
    rewrite E in H.
    rewrite (handle_related_m2m_field_skips _ _ _ _ _ Hrel) in H.
    now injection H as <-.
  - apply String.eqb_neq in E.
    apply (absent_writes_at N _ st st' E Ha).
    now apply handle_related_m2m_field_writes in H.
Qed.

(** The record [end_object] appends carries [_fields] under "fields". *)
Lemma end_object_record obj st st' :
  Python.end_object db obj st = Ok st' ->
  exists rec,
    Python.objects st' = Python.objects st ++ [rec]
    /\ getitem rec "fields" = Some (Python._fields st)
    /\ getitem rec "model" = Some (VScalar (PyStr (Meta.label (_meta obj))))
    /\ getitem rec "pk" = Some (VScalar (smart_str db (_get_pk_val obj))).
Proof.
  unfold Python.end_object. intros H. injection H as <-. simpl.
  eexists. split; [reflexivity|].
  destruct (truthy (Python._extras st)); simpl; auto.
Qed.

(** Serializing one object appends one record, in which a key that is
    [never_stored] is missing. *)
Lemma serialize_object_record (o : pyval) self self' :
  Base.serialize_object (hooks := hooks) db fields excludes extras o self
  = Ok self' ->
  exists obj rec,
    as_model db o = Ok obj
    /\ Python.objects self' = Python.objects self ++ [rec]
    /\ forall N, never_stored fields excludes relations obj N ->
                 record_field rec N = None.
Proof.
  intros Hrun. unfold Base.serialize_object in Hrun. unbind.
  simpl in E. unfold Python.start_object in E. injection E as <-.
  rename a0 into obj.
  assert (O5 : Python.objects a5 = Python.objects self).
  { apply (for_each_invariant
             (fun st => Python.objects st = Python.objects self)) in E1;
      [ | intros x st st' _ Hst Hx;
          apply local_field_step_objects in Hx; congruence | reflexivity ].
    apply (for_each_invariant
             (fun st => Python.objects st = Python.objects self)) in E2;
      [ | intros x st st' _ Hst Hx;
          apply m2m_field_step_objects in Hx; congruence | exact E1 ].
    apply (for_each_invariant
             (fun st => Python.objects st = Python.objects self)) in E3;
      [ | intros x st st' _ Hst Hx;
          apply related_fk_step_objects in Hx; congruence | exact E2 ].
    apply (for_each_invariant
             (fun st => Python.objects st = Python.objects self)) in E4;
      [ | intros x st st' _ Hst Hx;
          apply related_m2m_step_objects in Hx; congruence | exact E3 ].
    apply (for_each_invariant
             (fun st => Python.objects st = Python.objects self)) in E5;
      [ exact E5
      | intros x st st' _ Hst Hx; simpl in Hx;
          apply handle_extra_field_fields in Hx; destruct Hx; congruence
      | exact E4 ]. }
  simpl in Hrun. apply end_object_record in Hrun.
  destruct Hrun as (rec & Hrec & Hfields & _).
  exists obj, rec. split; [assumption|]. split; [congruence|].
  intros N (H1 & H2 & H3 & H4).
  unfold record_field. rewrite Hfields.
  apply (for_each_invariant (absent N)) in E1;
    [ | intros x st st' Hin; apply local_field_step_absent; exact (H1 x Hin)
      | reflexivity ].
  apply (for_each_invariant (absent N)) in E2;
    [ | intros x st st' Hin; apply m2m_field_step_absent; exact (H2 x Hin) | exact E1 ].
  apply (for_each_invariant (absent N)) in E3;
    [ | intros x st st' Hin; apply related_fk_step_absent; exact (H3 x Hin) | exact E2 ].
  apply (for_each_invariant (absent N)) in E4;
    [ | intros x st st' Hin; apply related_m2m_step_absent; exact (H4 x Hin) | exact E3 ].
  apply (for_each_invariant (absent N)) in E5;
    [ exact E5
    | intros x st st' _ Hst Hx; simpl in Hx;
        apply handle_extra_field_fields in Hx; destruct Hx as [Hx _];
        unfold absent; now rewrite Hx
    | exact E4 ].
Qed.

(** A property of every object's record is a property of the result. *)
Lemma serialize_with_Forall2 (Q : pyval -> value -> Prop) :
  (forall o self self',
     Base.serialize_object (hooks := hooks) db fields excludes extras o self
     = Ok self' ->
     exists rec, Python.objects self' = Python.objects self ++ [rec] /\ Q o rec) ->
  forall queryset recs,
    serialize_with db relations nested fields excludes extras use_natural_keys
      queryset = Ok recs ->
    Forall2 Q queryset recs.
Proof.
  intros HQ queryset recs Hrun.
  assert (G : forall qs st st',
    for_each (Base.serialize_object (hooks := hooks) db fields excludes extras)
      qs st = Ok st' ->
    exists rs, Python.objects st' = Python.objects st ++ rs /\ Forall2 Q qs rs).
  { induction qs as [|o tl IH]; simpl; intros st st' H.
    - injection H as <-. exists []. rewrite app_nil_r. auto.
    - unbind. apply HQ in E. destruct E as (rec & Hrec & Hq).
      apply IH in H. destruct H as (rs & Hrs & Hall).
      exists (rec :: rs). split; [|now constructor].
      rewrite Hrs, Hrec, <- app_assoc. reflexivity. }
  unfold serialize_with, Base.serialize in Hrun. simpl in Hrun.
  unbind. simpl in Hrun. subst recs.
  apply G in E. destruct E as (rs & Hrs & Hall).
  unfold Python.getvalue. rewrite Hrs. exact Hall.
Qed.

(** In every record of a result, a key that is [never_stored] for the
    object of the record is missing. *)
Lemma serialize_with_absent queryset recs :
  serialize_with db relations nested fields excludes extras use_natural_keys
    queryset = Ok recs ->
  Forall2
    (fun o rec =>
       forall obj N, as_model db o = Ok obj ->
         never_stored fields excludes relations obj N ->
         record_field rec N = None)
    queryset recs.
Proof.
  apply serialize_with_Forall2. intros o self self' H.
  apply serialize_object_record in H.
  destruct H as (obj & rec & Hobj & Hrec & Habs).
  exists rec. split; [assumption|].
  intros obj' N Hobj'. rewrite Hobj in Hobj'. injection Hobj' as <-.
  apply Habs.
Qed.
End Records.

(** ** Names *)

Lemma substring_prefix (s t : string) :
  substring 0 (String.length s) (s ++ t) = s.
Proof.
  induction s as [|c s IH]; simpl.
  - now destruct t.
  - now rewrite IH.
Qed.

Lemma length_append (s t : string) :
  String.length (s ++ t) = String.length s + String.length t.
Proof.
  induction s as [|c s IH]; simpl; [reflexivity | now rewrite IH].
Qed.

Lemma drop_last3_suffix (n suffix : string) :
  String.length suffix = 3 -> drop_last3 (n ++ suffix) = n.
Proof.
  intros H. unfold drop_last3. rewrite length_append, H.
  replace (String.length n + 3 - 3) with (String.length n) by lia.
  apply substring_prefix.
Qed.

Lemma tested_name_named (f : Field.t) :
  local_field_named f = true -> tested_name f = Field.name f.
Proof.
  unfold local_field_named, tested_name.
  destruct (Field.rel f); intros H; apply String.eqb_eq in H; rewrite H.
  - now apply drop_last3_suffix.
  - reflexivity.
Qed.

Lemma NoDup_app_disjoint {A : Type} (l1 l2 : list A) (x : A) :
  NoDup (l1 ++ l2) -> In x l1 -> In x l2 -> False.
Proof.
  induction l1 as [|a l1 IH]; simpl; intros Hnd H1 H2; [contradiction|].
  inversion Hnd as [|? ? Hnotin Hnd']; subst.
  destruct H1 as [->|H1].
  - apply Hnotin. apply in_or_app. now right.
  - now apply IH.
Qed.

Lemma NoDup_map_eq {A B : Type} (g : A -> B) (l : list A) (x y : A) :
  NoDup (map g l) -> In x l -> In y l -> g x = g y -> x = y.
Proof.
  induction l as [|a l IH]; simpl; intros Hnd Hx Hy E; [contradiction|].
  inversion Hnd as [|? ? Hnotin Hnd']; subst.
  destruct Hx as [->|Hx], Hy as [->|Hy]; auto.
  - exfalso. apply Hnotin. rewrite E. now apply in_map.
  - exfalso. apply Hnotin. rewrite <- E. now apply in_map.
Qed.

Lemma Forall2_singleton {A B : Type} (Q : A -> B -> Prop) (a : A) (b : B) :
  Forall2 Q [a] [b] -> Q a b.
Proof. intros H. now inversion H. Defined.

Lemma serialize_unfold db fields excludes relations extras nk :
  serialize db (Options fields excludes relations extras nk)
  = serialize_with db relations (nested_of db relations)
      fields excludes extras nk.
Proof. reflexivity. Qed.

(** ** Field selection *)

(** C7. A foreign key's attribute name is its name followed by a suffix of
    three characters ([_id]). For such a field the name the orchestrator
    tests, the attribute name without its last three characters, is the
    field's name, so that a serializable foreign key is dispatched exactly
    when its name passes the [fields]/[excludes] test. *)
Theorem fk_filter_tests_logical_name
  {S Out : Type} {hooks : Base.Hooks S Out}
  (fields excludes : list string) (obj : instance) (f : Field.t) (st : S)
  (r : Rel.t) :
  Field.rel f = Some r ->
  Field.serialize f = true ->
  Field.attname f = (Field.name f ++ "_id")%string ->
  drop_last3 (Field.attname f) = Field.name f
  /\ Base.local_field_step fields excludes obj f st
     = if selected fields excludes (Field.name f)
       then Base.handle_fk_field obj f st
       else Ok st.
Proof.
  intros Hrel Hser Hatt.
  assert (Hn : drop_last3 (Field.attname f) = Field.name f).
  { rewrite Hatt. now apply drop_last3_suffix. }
  split; [exact Hn|].
  rewrite local_field_step_eq. unfold local_dispatched, tested_name.
  now rewrite Hrel, Hser, Hn.
Qed.

Lemma fk_filter_tests_logical_name_witness :
  drop_last3 (Field.attname (Library.foreign_key "author" "id")) = "author"
  /\ Base.local_field_step (hooks := Spy.Recorder) ["title"] []
       Library.book_x (Library.foreign_key "author" "id") []
     = Ok [].
Proof.
  apply (fk_filter_tests_logical_name (hooks := Spy.Recorder) ["title"] []
           Library.book_x (Library.foreign_key "author" "id") []
           (Rel.ManyToOne "id"));
    reflexivity.
Defined.

(** C3. Excludes dominance: when the fields of a model carry the
    framework's names, a name in [excludes] is missing from the fields of
    every record, whether or not it is also in [fields] and whatever kind
    of field it names. *)
Theorem excludes_dominance (db : ref -> instance) (o : options)
  (queryset : list pyval) (recs : list value) (N : string) :
  In N (opt_excludes o) ->
  serialize db o queryset = Ok recs ->
  Forall2
    (fun q rec =>
       forall obj, as_model db q = Ok obj ->
         meta_named (_meta obj) = true ->
         record_field rec N = None)
    queryset recs.
Proof.
  destruct o as [fields excludes relations extras nk]. simpl opt_excludes.
  intros Hin Hrun. rewrite serialize_unfold in Hrun.
  apply serialize_with_absent in Hrun.
  revert Hrun. apply Forall2_impl. intros q rec Habs obj Hobj Hnamed.
  apply (Habs obj N Hobj).
  apply contains_In in Hin.
  unfold meta_named in Hnamed. apply andb_prop in Hnamed.
  destruct Hnamed as [Hlocal Hm2m].
  rewrite forallb_forall in Hlocal, Hm2m.
  repeat split.
  - intros f Hf Hname. unfold local_dispatched, selected.
    rewrite (tested_name_named f (Hlocal f Hf)), Hname, Hin. simpl.
    apply andb_false_r.
  - intros f Hf Hname. left. unfold m2m_dispatched, selected.
    specialize (Hm2m f Hf). unfold m2m_field_named in Hm2m.
    apply String.eqb_eq in Hm2m. rewrite Hm2m, Hname, Hin. simpl.
    apply andb_false_r.
  - intros ro _ _. now left.
  - intros ro _ _. now left.
Qed.

Lemma excludes_dominance_witness :
  exists book_rec author_rec,
    serialize Library.db Library.allow_and_deny [PyModel 10] = Ok [book_rec]
    /\ serialize Library.db Library.allow_and_deny_direct [PyModel 1]
       = Ok [author_rec]
    /\ record_field book_rec "title" = Some (VScalar (PyStr "X"))
    /\ record_field book_rec "author" = None
    /\ record_field book_rec "tags" = None
    /\ record_field author_rec "name" = Some (VScalar (PyStr "Alice"))
    /\ record_field author_rec "born" = None.
Proof.
  do 2 eexists.
  split; [vm_compute; reflexivity|].
  split; [vm_compute; reflexivity|].
  split; [reflexivity|].
  split; [|split; [|split; [reflexivity|]]].
  - refine (Forall2_singleton _ _ _
             (excludes_dominance Library.db Library.allow_and_deny
                [PyModel 10] _ "author" _ _)
             Library.book_x _ _);
      [simpl; auto | vm_compute; reflexivity | reflexivity | reflexivity].
  - refine (Forall2_singleton _ _ _
             (excludes_dominance Library.db Library.allow_and_deny
                [PyModel 10] _ "tags" _ _)
             Library.book_x _ _);
      [simpl; auto | vm_compute; reflexivity | reflexivity | reflexivity].
  - refine (Forall2_singleton _ _ _
             (excludes_dominance Library.db Library.allow_and_deny_direct
                [PyModel 1] _ "born" _ _)
             Library.alice _ _);
      [simpl; auto | vm_compute; reflexivity | reflexivity | reflexivity].
Defined.

(** ** Reverse relations left unexpanded *)

(** C1. Let [N] be a name that is not in [relations] and is not the name
    of a forward field. In every record of a result [N] is not a key of
    the fields, given that an accessor of a reverse foreign key does not
    read None on the object: the framework's reverse accessors give a
    manager or an instance, or raise. So the accessor of a reverse foreign
    key or of a reverse many-to-many relation that is left out of
    [relations] is missing from the record, not bound to a null or empty
    value. *)
Theorem reverse_relation_not_expanded (db : ref -> instance) (o : options)
  (queryset : list pyval) (recs : list value) (N : string) :
  rel_contains (opt_relations o) N = false ->
  serialize db o queryset = Ok recs ->
  Forall2
    (fun q rec =>
       forall obj, as_model db q = Ok obj ->
         ~ In N (forward_names (_meta obj)) ->
         (In N (map Relation.get_accessor_name
                  (Base.related_fk_objects (_meta obj))) ->
          getattr obj N <> Ok PyNone) ->
         record_field rec N = None)
    queryset recs.
Proof.
  destruct o as [fields excludes relations extras nk]. simpl opt_relations.
  intros Hrel Hrun. rewrite serialize_unfold in Hrun.
  apply serialize_with_absent in Hrun.
  revert Hrun. apply Forall2_impl. intros q rec Habs obj Hobj Hfwd Hnone.
  apply (Habs obj N Hobj).
  unfold forward_names in Hfwd. rewrite in_app_iff in Hfwd.
  repeat split.
  - intros f Hf Hname. exfalso. apply Hfwd. left. rewrite <- Hname.
    now apply in_map.
  - intros f Hf Hname. exfalso. apply Hfwd. right. rewrite <- Hname.
    now apply in_map.
  - intros ro Hro Hname. right. split; [assumption|].
    apply Hnone. rewrite <- Hname. now apply in_map.
  - intros ro _ _. now right.
Qed.

Lemma reverse_relation_not_expanded_witness :
  exists author_rec tag_rec,
    serialize Library.db no_options [PyModel 1; PyModel 30]
    = Ok [author_rec; tag_rec]
    /\ record_field author_rec "book_set" = None
    /\ record_field author_rec "profile" = None
    /\ record_field tag_rec "book_set" = None.
Proof.
  do 2 eexists. split; [vm_compute; reflexivity|].
  pose proof (reverse_relation_not_expanded Library.db no_options
                [PyModel 1; PyModel 30] _ "book_set"
                ltac:(reflexivity) ltac:(vm_compute; reflexivity)) as H.
  pose proof (reverse_relation_not_expanded Library.db no_options
                [PyModel 1; PyModel 30] _ "profile"
                ltac:(reflexivity) ltac:(vm_compute; reflexivity)) as G.
  inversion H as [|q1 r1 qs1 rs1 H1 H']; subst.
  inversion G as [|q2 r2 qs2 rs2 G1 _]; subst.
  apply Forall2_singleton in H'.
  split; [|split].
  - apply (H1 Library.alice); [reflexivity | | intros _; discriminate].
    simpl. intuition discriminate.
  - apply (G1 Library.alice); [reflexivity | | intros _; discriminate].
    simpl. intuition discriminate.
  - apply (H' (Library.db 30)); [reflexivity | | intros _; discriminate].
    simpl. intuition discriminate.
Defined.

(** ** Many-to-many fields with a through model of their own *)

(** C10. [handle_m2m_field] returns without an error and without touching
    its state for a field whose through model is not auto-created,
    whatever [relations] and the natural-key mode are; and the record of
    an object whose names are distinct has no key for such a field,
    whatever the options. *)
Theorem m2m_custom_through_stores_nothing (db : ref -> instance) :
  (forall relations nk nested obj f k st,
     Field.rel f = Some (Rel.ManyToMany false k) ->
     Python.handle_m2m_field db relations nk nested obj f st = Ok st)
  /\ (forall o queryset recs,
        serialize db o queryset = Ok recs ->
        Forall2
          (fun q rec =>
             forall obj f k, as_model db q = Ok obj ->
               distinct_names (_meta obj) ->
               In f (Meta.many_to_many (_meta obj)) ->
               Field.rel f = Some (Rel.ManyToMany false k) ->
               record_field rec (Field.name f) = None)
          queryset recs).
Proof.
  split.
  - intros. eapply handle_m2m_field_skips. eassumption.
  - intros [fields excludes relations extras nk] queryset recs Hrun.
    rewrite serialize_unfold in Hrun. apply serialize_with_absent in Hrun.
    revert Hrun. apply Forall2_impl.
    intros q rec Habs obj f k Hobj Hnd Hf Hrel.
    apply (Habs obj (Field.name f) Hobj).
    unfold distinct_names, forward_names in Hnd.
    assert (Hin : In (Field.name f) (map Field.name (Meta.many_to_many (_meta obj))))
      by now apply in_map.
    repeat split.
    + intros g Hg Hname. exfalso.
      apply NoDup_app_remove_r in Hnd.
      apply (NoDup_app_disjoint _ _ (Field.name f) Hnd); [|exact Hin].
      rewrite <- Hname. now apply in_map.
    + intros g Hg Hname. right. exists k.
      apply NoDup_app_remove_r, NoDup_app_remove_l in Hnd.
      now rewrite (NoDup_map_eq Field.name _ g f Hnd Hg Hf Hname).
    + intros ro Hro Hname. exfalso.
      apply (NoDup_app_disjoint _ _ (Field.name f) Hnd).
      * apply in_or_app. now right.
      * unfold reverse_names. apply in_or_app. left.
        rewrite <- Hname. now apply in_map.
    + intros ro Hro Hname. exfalso.
      apply (NoDup_app_disjoint _ _ (Field.name f) Hnd).
      * apply in_or_app. now right.
      * unfold reverse_names. apply in_or_app. right.
        rewrite <- Hname. now apply in_map.
Qed.

Lemma m2m_custom_through_stores_nothing_witness :
  exists rec,
    serialize Library.db Library.expand_reviewers [PyModel 10] = Ok [rec]
    /\ record_field rec "title" = Some (VScalar (PyStr "X"))
    /\ record_field rec "reviewers" = None.
Proof.
  eexists. split; [vm_compute; reflexivity|].
  split; [reflexivity|].
  refine (Forall2_singleton _ _ _
            (proj2 (m2m_custom_through_stores_nothing Library.db)
               Library.expand_reviewers [PyModel 10] _ _)
            Library.book_x (Library.many_to_many "reviewers" false) false
            _ _ _ _).
  - vm_compute; reflexivity.
  - reflexivity.
  - unfold distinct_names. vm_compute.
    repeat constructor; simpl; intuition discriminate.
  - simpl. auto.
  - reflexivity.
Defined.

(** ** Nested serializers *)

(** With nothing to expand, the nested serializers are never run. *)
Lemma serialize_no_options (db : ref -> instance) :
  serialize db no_options = serialize_default db.
Proof. reflexivity. Qed.

Lemma nested_in_options (db : ref -> instance) (d : rel_items) (fname : string) :
  rel_contains (RelDict d) fname = true ->
  nested_in db d fname = serialize db (nested_options (RelDict d) fname).
Proof.
  induction d as [|k v rest IH]; simpl; [discriminate|].
  destruct (String.eqb k fname) eqn:E.
  - intros _. destruct v; reflexivity.
  - exact IH.
Qed.

Lemma nested_of_options (db : ref -> instance) (relations : relations_t)
  (fname : string) :
  rel_contains relations fname = true ->
  nested_of db relations fname
  = serialize db (nested_options relations fname).
Proof.
  destruct relations as [names|d].
  - reflexivity.
  - apply nested_in_options.
Qed.

(** A queryset of one object serializes to one record. *)
Lemma serialize_one (db : ref -> instance) (o : options) (q : pyval)
  (recs : list value) :
  serialize db o [q] = Ok recs -> exists rec, recs = [rec].
Proof.
  destruct o as [fields excludes relations extras nk].
  rewrite serialize_unfold. intros H.
  apply (serialize_with_Forall2 _ _ _ _ _ _ _ (fun _ _ => True)) in H.
  - inversion H as [|? rec ? rs _ Hrs]; subst. inversion Hrs; subst. eauto.
  - intros o0 self self' Hrun. apply serialize_object_record in Hrun.
    destruct Hrun as (_ & rec & _ & Hrec & _). eauto.
Qed.

(** ** Forward foreign keys *)

(** C2. When the related object of a foreign key is present and the field
    is named in [relations], the handler stores under the field's name the
    one record that a fresh [serialize] of the related object alone
    returns, run with the options found under that name in the dict form
    of [relations] when that value is a dict, and with no options
    otherwise. *)
Theorem fk_expanded_is_nested_serialize (db : ref -> instance)
  (relations : relations_t) (nk : bool) (obj : instance) (f : Field.t)
  (st : Python.state) (d : dict) (related : pyval) (recs : list value) :
  getattr obj (Field.name f) = Ok related ->
  is_none related = false ->
  rel_contains relations (Field.name f) = true ->
  Python._fields st = VDict d ->
  serialize db (nested_options relations (Field.name f)) [related] = Ok recs ->
  exists rec,
    recs = [rec]
    /\ Python.handle_fk_field db relations nk (nested_of db relations) obj f st
       = Ok (Python.State (VDict (dict_set d (Field.name f) rec))
               (Python._extras st) (Python.objects st))
    /\ dict_get (dict_set d (Field.name f) rec) (Field.name f) = Some rec.
Proof.
  intros Hget Hsome Hrel Hd Hrun.
  destruct (serialize_one _ _ _ _ Hrun) as (rec & ->).
  exists rec. split; [reflexivity|]. split; [|apply dict_get_set_same].
  unfold Python.handle_fk_field. rewrite Hget. simpl. rewrite Hsome, Hrel.
  simpl. rewrite (nested_of_options _ _ _ Hrel), Hrun. simpl.
  unfold Python.set_field. now rewrite Hd.
Qed.

Lemma fk_expanded_is_nested_serialize_witness :
  exists rec,
    serialize Library.db (Options ["name"] [] (RelList []) [] false) [PyModel 1]
    = Ok [rec]
    /\ Python.handle_fk_field Library.db (opt_relations Library.expand_author)
         false (nested_of Library.db (opt_relations Library.expand_author))
         Library.book_x (Library.foreign_key "author" "id")
         (Python.State (VDict []) (VDict []) [])
       = Ok (Python.State (VDict [("author", rec)]) (VDict []) []).
Proof.
  destruct (fk_expanded_is_nested_serialize Library.db
              (opt_relations Library.expand_author) false Library.book_x
              (Library.foreign_key "author" "id")
              (Python.State (VDict []) (VDict []) []) [] (PyModel 1)
              _ eq_refl eq_refl eq_refl eq_refl eq_refl)
    as (rec & Hrec & Hrun & _).
  exists rec. split; [|exact Hrun].
  rewrite <- Hrec. vm_compute. reflexivity.
Defined.

(** C4, as the code has it. For a foreign key left out of [relations],
    with natural keys disabled, that refers to the primary key of the
    related model, and whose related object is present, the handler stores
    the primary-key value of the related object itself, unconverted. *)
Theorem fk_reference_is_pk_value (db : ref -> instance)
  (relations : relations_t) (nested : string -> serializer) (obj : instance)
  (f : Field.t) (st : Python.state) (d : dict) (r : ref) :
  getattr obj (Field.name f) = Ok (PyModel r) ->
  rel_contains relations (Field.name f) = false ->
  Field.rel f = Some (Rel.ManyToOne (Meta.pk_name (_meta (db r)))) ->
  Python._fields st = VDict d ->
  Python.handle_fk_field db relations false nested obj f st
  = Ok (Python.State
          (VDict (dict_set d (Field.name f) (VScalar (_get_pk_val (db r)))))
          (Python._extras st) (Python.objects st)).
Proof.
  intros Hget Hrel Hfk Hd.
  unfold Python.handle_fk_field, field_rel. rewrite Hget. simpl.
  rewrite Hrel, Hfk. simpl. rewrite String.eqb_refl. simpl.
  unfold Python.set_field. now rewrite Hd.
Qed.

Lemma fk_reference_is_pk_value_witness :
  Python.handle_fk_field Library.db (RelList []) false
    (fun _ => serialize_default Library.db) Library.book_x
    (Library.foreign_key "author" "id")
    (Python.State (VDict []) (VDict []) [])
  = Ok (Python.State (VDict [("author", VScalar (PyInt 1))]) (VDict []) []).
Proof.
  apply (fk_reference_is_pk_value Library.db (RelList [])
           (fun _ => serialize_default Library.db) Library.book_x
           (Library.foreign_key "author" "id")
           (Python.State (VDict []) (VDict []) []) [] 1);
    reflexivity.
Defined.

(** C4, as stated, fails: the first book refers to its author by the
    integer 1 and to its publisher, whose primary key is a UUID, by the
    UUID object; neither is the string form of the key, and the second is
    not even what [smart_str] makes of it. *)
Lemma fk_reference_is_not_a_string :
  exists rec,
    serialize Library.db no_options [PyModel 10] = Ok [rec]
    /\ getattr Library.book_x "author" = Ok (PyModel 1)
    /\ getattr Library.book_x "publisher" = Ok (PyModel 20)
    /\ In (Library.foreign_key "author" (Meta.pk_name (_meta (Library.db 1))))
          (Meta.local_fields (_meta Library.book_x))
    /\ In (Library.foreign_key "publisher" (Meta.pk_name (_meta (Library.db 20))))
          (Meta.local_fields (_meta Library.book_x))
    /\ record_field rec "author" = Some (VScalar (PyInt 1))
    /\ record_field rec "author"
       <> Some (VScalar (string_form Library.db (_get_pk_val (Library.db 1))))
    /\ record_field rec "publisher"
       = Some (VScalar (PyObject "6fa459ea-ee8a-3ca4-894e-db77e160355e"))
    /\ record_field rec "publisher"
       <> Some (VScalar (string_form Library.db (_get_pk_val (Library.db 20))))
    /\ record_field rec "publisher"
       <> Some (VScalar (smart_str Library.db (_get_pk_val (Library.db 20)))).
Proof.
  eexists. split; [vm_compute; reflexivity|].
  repeat split; simpl; auto; discriminate.
Qed.

(** C9, as the code has it. When the related object of a foreign key is
    None, the handler does not fail: it stores None itself, which is what
    [smart_str] makes of None, under the field's name, whatever
    [relations], the natural-key mode and the nested serializers are. *)
Theorem fk_absent_is_stored (db : ref -> instance) (relations : relations_t)
  (nk : bool) (nested : string -> serializer) (obj : instance) (f : Field.t)
  (st : Python.state) (d : dict) :
  getattr obj (Field.name f) = Ok PyNone ->
  Python._fields st = VDict d ->
  Python.handle_fk_field db relations nk nested obj f st
  = Ok (Python.State
          (VDict (dict_set d (Field.name f) (VScalar PyNone)))
          (Python._extras st) (Python.objects st)).
Proof.
  intros Hget Hd. unfold Python.handle_fk_field. rewrite Hget. simpl.
  unfold Python.set_field. now rewrite Hd.
Qed.

Lemma fk_absent_is_stored_witness :
  Python.handle_fk_field Library.db (RelList ["publisher"]) true
    (fun _ => serialize_default Library.db) Library.book_y
    (Library.foreign_key "publisher" "uuid")
    (Python.State (VDict [("title", VScalar (PyStr "Y"))]) (VDict []) [])
  = Ok (Python.State
          (VDict [("title", VScalar (PyStr "Y"));
                  ("publisher", VScalar PyNone)])
          (VDict []) []).
Proof.
  apply (fk_absent_is_stored Library.db (RelList ["publisher"]) true
           (fun _ => serialize_default Library.db) Library.book_y
           (Library.foreign_key "publisher" "uuid")
           (Python.State (VDict [("title", VScalar (PyStr "Y"))]) (VDict []) [])
           [("title", VScalar (PyStr "Y"))]);
    reflexivity.
Defined.

(** C9, as stated, fails: the second book has no publisher, and its record
    binds [publisher] to None, not to the string form of None. *)
Lemma fk_absent_is_not_a_string :
  exists rec,
    serialize Library.db no_options [PyModel 11] = Ok [rec]
    /\ getattr Library.book_y "publisher" = Ok PyNone
    /\ record_field rec "publisher" = Some (VScalar PyNone)
    /\ string_form Library.db PyNone = PyStr "None"
    /\ record_field rec "publisher"
       <> Some (VScalar (string_form Library.db PyNone)).
Proof.
  eexists. split; [vm_compute; reflexivity|].
  repeat split; simpl; auto; discriminate.
Qed.

(** What [smart_str] does in its strings-only mode: protected values and
    strings pass unchanged, anything else becomes its string form. *)
Lemma smart_str_protected (db : ref -> instance) (v : pyval) :
  is_protected_type v = true -> smart_str db v = v.
Proof. now destruct v. Qed.

Lemma smart_str_string (db : ref -> instance) (s : string) :
  smart_str db (PyStr s) = PyStr s.
Proof. reflexivity. Qed.

Lemma smart_str_other (db : ref -> instance) (v : pyval) :
  is_protected_type v = false -> smart_str db v = string_form db v.
Proof. now destruct v. Qed.

(** ** Many-to-many references *)

Lemma comprehension_pks (db : ref -> instance) (items : list ref) :
  comprehension
    (fun value =>
       target <- as_model db value ;;
       Ok (smart_str db (_get_pk_val target)))
    (map PyModel items)
  = Ok (map (fun r => smart_str db (_get_pk_val (db r))) items).
Proof.
  induction items as [|r tl IH]; simpl; [reflexivity|].
  now rewrite IH.
Qed.

(** C5, as the code has it. For a many-to-many field with an auto-created
    through model, left out of [relations], natural keys disabled, the
    handler stores under the field's name a list with one element per
    related object, in the order the manager iterates them: what
    [smart_str] makes of the object's primary-key value, which is the
    value itself when it is a string or protected, and its string form
    otherwise. *)
Theorem m2m_reference_list (db : ref -> instance) (relations : relations_t)
  (nested : string -> serializer) (obj : instance) (f : Field.t)
  (k : bool) (st : Python.state) (d : dict) (repr : string)
  (items : list ref) :
  Field.rel f = Some (Rel.ManyToMany true k) ->
  rel_contains relations (Field.name f) = false ->
  getattr obj (Field.name f) = Ok (PyManager repr items) ->
  Python._fields st = VDict d ->
  Python.handle_m2m_field db relations false nested obj f st
  = Ok (Python.State
          (VDict
             (dict_set d (Field.name f)
                (VList
                   (map (fun r => VScalar (smart_str db (_get_pk_val (db r))))
                      items))))
          (Python._extras st) (Python.objects st)).
Proof.
  intros Hrel Hnot Hget Hd.
  unfold Python.handle_m2m_field, field_rel. rewrite Hrel. simpl.
  rewrite Hnot, Hget. simpl. rewrite comprehension_pks. simpl.
  unfold Python.set_field. rewrite Hd. simpl. now rewrite map_map.
Qed.

Lemma m2m_reference_list_witness :
  Python.handle_m2m_field Library.db (RelList []) false
    (fun _ => serialize_default Library.db) Library.book_x
    (Library.many_to_many "tags" true)
    (Python.State (VDict []) (VDict []) [])
  = Ok (Python.State
          (VDict [("tags", VList [VScalar (PyInt 31); VScalar (PyInt 30)])])
          (VDict []) []).
Proof.
  apply (m2m_reference_list Library.db (RelList [])
           (fun _ => serialize_default Library.db) Library.book_x
           (Library.many_to_many "tags" true) false
           (Python.State (VDict []) (VDict []) []) []
           "app.Tag.None" [31; 30]);
    reflexivity.
Defined.

(** C5, as stated, fails: the tags of the first book have integer keys,
    and its record lists the integers, not their string forms. *)
Lemma m2m_reference_list_is_not_strings :
  exists rec,
    serialize Library.db no_options [PyModel 10] = Ok [rec]
    /\ getattr Library.book_x "tags" = Ok (PyManager "app.Tag.None" [31; 30])
    /\ record_field rec "tags"
       = Some (VList [VScalar (PyInt 31); VScalar (PyInt 30)])
    /\ map (fun r => string_form Library.db (_get_pk_val (Library.db r)))
         [31; 30]
       = [PyStr "31"; PyStr "30"]
    /\ record_field rec "tags"
       <> Some (VList
                 (map (fun r =>
                         VScalar
                           (string_form Library.db (_get_pk_val (Library.db r))))
                    [31; 30])).
Proof.
  eexists. split; [vm_compute; reflexivity|].
  repeat split; simpl; auto; discriminate.
Qed.

(** ** Extras *)

Lemma getattr_hasattr (obj : instance) (n : string) (v : pyval) :
  getattr obj n = Ok v -> hasattr obj n = true.
Proof.
  unfold getattr, hasattr. now destruct (assoc (attrs obj) n).
Qed.

(** C8, as the code has it. For a name in [extras]: a callable attribute
    of that name is called and what [smart_str] makes of its result (the
    result itself when it is a string or protected, its string form
    otherwise) is stored under the name in [_extras]; an attribute that is
    not callable is stored as what [smart_str] makes of it; and when the
    object has no such attribute the handler returns its state unchanged,
    without an error. *)
Theorem extra_field_cases (db : ref -> instance) (obj : instance)
  (n : string) (st : Python.state) :
  (forall d repr ret,
     Python._extras st = VDict d ->
     getattr obj n = Ok (PyCallable repr ret) ->
     Python.handle_extra_field db obj n st
     = Ok (Python.State (Python._fields st)
             (VDict (dict_set d n (VScalar (smart_str db ret))))
             (Python.objects st)))
  /\ (forall d v,
        Python._extras st = VDict d ->
        getattr obj n = Ok v ->
        callable v = false ->
        Python.handle_extra_field db obj n st
        = Ok (Python.State (Python._fields st)
                (VDict (dict_set d n (VScalar (smart_str db v))))
                (Python.objects st)))
  /\ (hasattr obj n = false ->
      Python.handle_extra_field db obj n st = Ok st).
Proof.
  unfold Python.handle_extra_field, Python.set_extra. repeat split.
  - intros d repr ret Hd Hget.
    rewrite (getattr_hasattr _ _ _ Hget), Hget. simpl. now rewrite Hd.
  - intros d v Hd Hget Hcall.
    rewrite (getattr_hasattr _ _ _ Hget), Hget. simpl. rewrite Hcall.
    now rewrite Hd.
  - now intros ->.
Qed.

Lemma extra_field_cases_witness :
  Python.handle_extra_field Library.db Library.alice "full_name"
    (Python.State (VDict []) (VDict []) [])
  = Ok (Python.State (VDict [])
          (VDict [("full_name", VScalar (PyStr "Alice A."))]) [])
  /\ Python.handle_extra_field Library.db Library.alice "nickname"
       (Python.State (VDict []) (VDict []) [])
     = Ok (Python.State (VDict [])
             (VDict [("nickname", VScalar (PyStr "Al"))]) [])
  /\ Python.handle_extra_field Library.db Library.alice "missing"
       (Python.State (VDict []) (VDict []) [])
     = Ok (Python.State (VDict []) (VDict []) []).
Proof.
  split; [|split].
  - apply (proj1 (extra_field_cases Library.db Library.alice "full_name"
                    (Python.State (VDict []) (VDict []) []))
             [] "<bound method Author.full_name>" (PyStr "Alice A."));
      reflexivity.
  - apply (proj1 (proj2 (extra_field_cases Library.db Library.alice "nickname"
                           (Python.State (VDict []) (VDict []) [])))
             [] (PyStr "Al"));
      reflexivity.
  - apply (proj2 (proj2 (extra_field_cases Library.db Library.alice "missing"
                           (Python.State (VDict []) (VDict []) []))));
      reflexivity.
Defined.

(** C8, as stated, fails: [book_count] is a method of Alice that returns
    the integer 2, and the extras bind it to the integer, not to its
    string form. *)
Lemma extra_is_not_a_string :
  exists rec,
    serialize Library.db (Options [] [] (RelList []) ["book_count"] false)
      [PyModel 1] = Ok [rec]
    /\ getattr Library.alice "book_count"
       = Ok (PyCallable "<bound method Author.book_count>" (PyInt 2))
    /\ string_form Library.db (PyInt 2) = PyStr "2"
    /\ getitem rec "extras" = Some (VDict [("book_count", VScalar (PyInt 2))])
    /\ getitem rec "extras"
       <> Some (VDict [("book_count", VScalar (string_form Library.db (PyInt 2)))]).
Proof.
  eexists. split; [vm_compute; reflexivity|].
  repeat split; simpl; auto; discriminate.
Qed.

(** ** What the orchestrator dispatches *)

Lemma selected_spec (fields excludes : list string) (n : string) :
  selected fields excludes n = true
  <-> contains excludes n = false /\ (fields = [] \/ In n fields).
Proof.
  unfold selected. rewrite andb_true_iff, negb_true_iff, orb_true_iff.
  rewrite contains_In.
  assert (E : is_empty fields = true <-> fields = [])
    by (destruct fields; simpl; split; congruence).
  now rewrite E.
Qed.

Lemma for_each_recorded {A : Type} (body : A -> list Spy.call -> result (list Spy.call))
  (calls : A -> list Spy.call) (l : list A) :
  (forall x st, body x st = Ok (st ++ calls x)) ->
  forall st, for_each body l st = Ok (st ++ flat_map calls l).
Proof.
  intros Hbody. induction l as [|x tl IH]; simpl; intros st.
  - now rewrite app_nil_r.
  - rewrite Hbody. simpl. rewrite IH. now rewrite app_assoc.
Qed.

Lemma flat_map_singleton {A B : Type} (g : A -> B) (l : list A) :
  flat_map (fun x => [g x]) l = map g l.
Proof.
  induction l as [|x tl IH]; simpl; [reflexivity | now rewrite IH].
Qed.

Section Recorded.
Variable db : ref -> instance.
Variables fields excludes extras : list string.

Lemma local_field_step_recorded obj f st :
  Base.local_field_step (hooks := Spy.Recorder) fields excludes obj f st
  = Ok (st ++ Spy.local_calls fields excludes f).
Proof.
  rewrite local_field_step_eq. unfold Spy.local_calls.
  destruct (local_dispatched fields excludes f).
  - now destruct (Field.rel f).
  - now rewrite app_nil_r.
Qed.

Lemma m2m_field_step_recorded obj f st :
  Base.m2m_field_step (hooks := Spy.Recorder) fields excludes obj f st
  = Ok (st ++ Spy.m2m_calls fields excludes f).
Proof.
  rewrite m2m_field_step_eq. unfold Spy.m2m_calls.
  destruct (m2m_dispatched fields excludes f); [reflexivity|].
  now rewrite app_nil_r.
Qed.

Lemma related_fk_step_recorded obj ro st :
  Base.related_fk_step (hooks := Spy.Recorder) excludes obj ro st
  = Ok (st ++ Spy.related_fk_calls excludes ro).
Proof.
  unfold Base.related_fk_step, Spy.related_fk_calls.
  destruct (contains excludes (Relation.get_accessor_name ro)); simpl;
    [now rewrite app_nil_r | reflexivity].
Qed.

Lemma related_m2m_step_recorded obj ro st :
  Base.related_m2m_step (hooks := Spy.Recorder) excludes obj ro st
  = Ok (st ++ Spy.related_m2m_calls excludes ro).
Proof.
  unfold Base.related_m2m_step, Spy.related_m2m_calls.
  destruct (contains excludes (Relation.get_accessor_name ro)); simpl;
    [now rewrite app_nil_r | reflexivity].
Qed.

Lemma serialize_object_recorded r st :
  Base.serialize_object (hooks := Spy.Recorder) db fields excludes extras
    (PyModel r) st
  = Ok (st ++ Spy.object_calls fields excludes extras (_meta (db r))).
Proof.
  unfold Base.serialize_object, Spy.object_calls. simpl.
  rewrite (for_each_recorded _ _ _ (local_field_step_recorded (db r))). simpl.
  rewrite (for_each_recorded _ _ _ (m2m_field_step_recorded (db r))). simpl.
  rewrite (for_each_recorded _ _ _ (related_fk_step_recorded (db r))). simpl.
  rewrite (for_each_recorded _ _ _ (related_m2m_step_recorded (db r))). simpl.
  rewrite (for_each_recorded _ (fun x => [Spy.HandleExtra x]) extras)
    by reflexivity.
  simpl. unfold Spy.record. rewrite flat_map_singleton.
  now rewrite <- !app_assoc.
Qed.

(** The recorder does not fail on a model instance, and records the
    calls made for it. *)
Lemma dispatched_model (r : ref) :
  Spy.dispatched db fields excludes extras [PyModel r]
  = Ok (Spy.object_calls fields excludes extras (_meta (db r))).
Proof.
  unfold Spy.dispatched, Base.serialize. simpl.
  now rewrite serialize_object_recorded.
Qed.
End Recorded.

(** Membership in the calls recorded for one kind of iteration. *)
Ltac in_calls H :=
  apply in_flat_map in H; destruct H as (? & ? & H);
  unfold Spy.local_calls, Spy.m2m_calls, Spy.related_fk_calls,
    Spy.related_m2m_calls in H;
  repeat match type of H with
         | In _ (if ?c then _ else _) => destruct c eqn:?
         | In _ (match ?r with _ => _ end) => destruct r eqn:?
         end;
  simpl in H; try contradiction;
  destruct H as [H|[]]; try discriminate H.

Lemma in_local_calls_field fields excludes l f :
  In (Spy.HandleField f) (flat_map (Spy.local_calls fields excludes) l)
  <-> In f l /\ Field.rel f = None /\ local_dispatched fields excludes f = true.
Proof.
  split.
  - intros H. in_calls H. injection H as <-. auto.
  - intros (Hin & Hrel & Hd). apply in_flat_map. exists f. split; [assumption|].
    unfold Spy.local_calls. rewrite Hd, Hrel. now left.
Qed.

Lemma in_local_calls_fk fields excludes l f :
  In (Spy.HandleFk f) (flat_map (Spy.local_calls fields excludes) l)
  <-> In f l /\ Field.rel f <> None /\ local_dispatched fields excludes f = true.
Proof.
  split.
  - intros H. in_calls H. injection H as <-. repeat split; congruence.
  - intros (Hin & Hrel & Hd). apply in_flat_map. exists f. split; [assumption|].
    unfold Spy.local_calls. rewrite Hd.
    destruct (Field.rel f); [now left | congruence].
Qed.

Lemma in_m2m_calls fields excludes l f :
  In (Spy.HandleM2m f) (flat_map (Spy.m2m_calls fields excludes) l)
  <-> In f l /\ m2m_dispatched fields excludes f = true.
Proof.
  split.
  - intros H. in_calls H. injection H as <-. auto.
  - intros (Hin & Hd). apply in_flat_map. exists f. split; [assumption|].
    unfold Spy.m2m_calls. rewrite Hd. now left.
Qed.

Lemma in_related_fk_calls excludes l n :
  In (Spy.HandleRelatedFk n) (flat_map (Spy.related_fk_calls excludes) l)
  <-> In n (map Relation.get_accessor_name l) /\ contains excludes n = false.
Proof.
  split.
  - intros H. in_calls H. injection H as <-. split; [now apply in_map | assumption].
  - intros (Hin & Hex). apply in_map_iff in Hin. destruct Hin as (ro & <- & Hro).
    apply in_flat_map. exists ro. split; [assumption|].
    unfold Spy.related_fk_calls. rewrite Hex. now left.
Qed.

Lemma in_related_m2m_calls excludes l n :
  In (Spy.HandleRelatedM2m n) (flat_map (Spy.related_m2m_calls excludes) l)
  <-> In n (map Relation.get_accessor_name l) /\ contains excludes n = false.
Proof.
  split.
  - intros H. in_calls H. injection H as <-. split; [now apply in_map | assumption].
  - intros (Hin & Hex). apply in_map_iff in Hin. destruct Hin as (ro & <- & Hro).
    apply in_flat_map. exists ro. split; [assumption|].
    unfold Spy.related_m2m_calls. rewrite Hex. now left.
Qed.

Lemma local_dispatched_spec fields excludes f :
  local_dispatched fields excludes f = true
  <-> Field.serialize f = true
      /\ contains excludes (tested_name f) = false
      /\ (fields = [] \/ In (tested_name f) fields).
Proof.
  unfold local_dispatched. now rewrite andb_true_iff, selected_spec.
Qed.

Lemma m2m_dispatched_spec fields excludes f :
  m2m_dispatched fields excludes f = true
  <-> Field.serialize f = true
      /\ contains excludes (Field.attname f) = false
      /\ (fields = [] \/ In (Field.attname f) fields).
Proof.
  unfold m2m_dispatched. now rewrite andb_true_iff, selected_spec.
Qed.

(** Splits membership in [Spy.object_calls] by the loop that made the call,
    and drops the loops that cannot have made it. *)
Ltac by_loop H :=
  unfold Spy.object_calls in H; simpl in H;
  destruct H as [H|H]; [discriminate H|];
  rewrite !in_app_iff in H;
  destruct H as [H|[H|[H|[H|[H|H]]]]];
  try solve [in_calls H];
  try solve [apply in_map_iff in H; destruct H as (? & H & _); discriminate H];
  try solve [destruct H as [H|[]]; discriminate H].

(** C6. Serializing one object, the orchestrator calls the handler of a
    reverse foreign key or reverse many-to-many relation exactly when its
    accessor name is not in [excludes], whatever [fields] is; whereas it
    calls the handler of a direct field, of a foreign key and of a
    many-to-many field only when, besides, [fields] is empty or holds the
    name it tests. *)
Theorem reverse_dispatch_ignores_allow_list (db : ref -> instance)
  (fields excludes extras : list string) (r : ref) :
  exists calls,
    Spy.dispatched db fields excludes extras [PyModel r] = Ok calls
    /\ (forall n,
          In (Spy.HandleRelatedFk n) calls
          <-> In n (map Relation.get_accessor_name
                      (Base.related_fk_objects (_meta (db r))))
              /\ contains excludes n = false)
    /\ (forall n,
          In (Spy.HandleRelatedM2m n) calls
          <-> In n (map Relation.get_accessor_name
                      (Base.related_m2m_objects (_meta (db r))))
              /\ contains excludes n = false)
    /\ (forall f,
          In (Spy.HandleField f) calls
          <-> In f (Meta.local_fields (_meta (db r)))
              /\ Field.rel f = None
              /\ Field.serialize f = true
              /\ contains excludes (Field.attname f) = false
              /\ (fields = [] \/ In (Field.attname f) fields))
    /\ (forall f,
          In (Spy.HandleFk f) calls
          <-> In f (Meta.local_fields (_meta (db r)))
              /\ Field.rel f <> None
              /\ Field.serialize f = true
              /\ contains excludes (drop_last3 (Field.attname f)) = false
              /\ (fields = [] \/ In (drop_last3 (Field.attname f)) fields))
    /\ (forall f,
          In (Spy.HandleM2m f) calls
          <-> In f (Meta.many_to_many (_meta (db r)))
              /\ Field.serialize f = true
              /\ contains excludes (Field.attname f) = false
              /\ (fields = [] \/ In (Field.attname f) fields)).
Proof.
  exists (Spy.object_calls fields excludes extras (_meta (db r))).
  split; [apply dispatched_model|].
  repeat match goal with |- _ /\ _ => split end; intros x; split.
  - intros H. by_loop H. now apply in_related_fk_calls in H.
  - intros H. unfold Spy.object_calls. simpl. right.
    rewrite !in_app_iff. right. right. left.
    now apply in_related_fk_calls.
  - intros H. by_loop H. now apply in_related_m2m_calls in H.
  - intros H. unfold Spy.object_calls. simpl. right.
    rewrite !in_app_iff. right. right. right. left.
    now apply in_related_m2m_calls.
  - intros H. by_loop H. apply in_local_calls_field in H.
    destruct H as (Hin & Hrel & Hd). apply local_dispatched_spec in Hd.
    unfold tested_name in Hd. rewrite Hrel in Hd. tauto.
  - intros (Hin & Hrel & Hd). unfold Spy.object_calls. simpl. right.
    rewrite !in_app_iff. left.
    apply in_local_calls_field. repeat split; try assumption.
    apply local_dispatched_spec. unfold tested_name. now rewrite Hrel.
  - intros H. by_loop H. apply in_local_calls_fk in H.
    destruct H as (Hin & Hrel & Hd). apply local_dispatched_spec in Hd.
    unfold tested_name in Hd. destruct (Field.rel x); [|congruence].
    repeat split; try tauto; discriminate.
  - intros (Hin & Hrel & Hd). unfold Spy.object_calls. simpl. right.
    rewrite !in_app_iff. left.
    apply in_local_calls_fk. repeat split; try assumption.
    apply local_dispatched_spec. unfold tested_name.
    destruct (Field.rel x); [assumption | congruence].
  - intros H. by_loop H. apply in_m2m_calls in H.
    destruct H as (Hin & Hd). apply m2m_dispatched_spec in Hd. tauto.
  - intros (Hin & Hd). unfold Spy.object_calls. simpl. right.
    rewrite !in_app_iff. right. left.
    apply in_m2m_calls. split; [assumption|].
    now apply m2m_dispatched_spec.
Qed.

Lemma reverse_dispatch_ignores_allow_list_witness :
  (exists calls,
     Spy.dispatched Library.db ["title"] [] [] [PyModel 1] = Ok calls
     /\ In (Spy.HandleRelatedFk "book_set") calls
     /\ ~ In (Spy.HandleField (Library.column "name")) calls)
  /\ (exists calls,
        Spy.dispatched Library.db ["title"] [] [] [PyModel 30] = Ok calls
        /\ In (Spy.HandleRelatedM2m "book_set") calls
        /\ ~ In (Spy.HandleField (Library.column "label")) calls).
Proof.
  split.
  - destruct (reverse_dispatch_ignores_allow_list Library.db ["title"] [] [] 1)
      as (calls & Hrun & Hfk & _ & Hfield & _).
    exists calls. split; [exact Hrun|]. split.
    + apply Hfk. split; [simpl; auto | reflexivity].
    + intros H. apply Hfield in H.
      destruct H as (_ & _ & _ & _ & [H|H]); [discriminate H|].
      simpl in H. destruct H as [H|[]]. discriminate H.
  - destruct (reverse_dispatch_ignores_allow_list Library.db ["title"] [] [] 30)
      as (calls & Hrun & _ & Hm2m & Hfield & _).
    exists calls. split; [exact Hrun|]. split.
    + apply Hm2m. split; [simpl; auto | reflexivity].
    + intros H. apply Hfield in H.
      destruct H as (_ & _ & _ & _ & [H|H]); [discriminate H|].
      simpl in H. destruct H as [H|[]]. discriminate H.
Defined.

(** * Further properties *)

(** ** Loops *)

Lemma for_each_app {A S : Type} (body : A -> S -> result S) (l1 l2 : list A)
  (st : S) :
  for_each body (l1 ++ l2) st
  = st' <- for_each body l1 st ;; for_each body l2 st'.
Proof.
  revert st. induction l1 as [|x tl IH]; simpl; intros st; [reflexivity|].
  destruct (body x st) as [st'|e]; simpl; [apply IH | reflexivity].
Qed.

(** A loop that returns ran every iteration to its end. *)
Lemma for_each_Ok_each {A S : Type} (body : A -> S -> result S) (l : list A) :
  forall st st', for_each body l st = Ok st' ->
    forall x, In x l -> exists s s', body x s = Ok s'.
Proof.
  induction l as [|y tl IH]; simpl; intros st st' H x Hx; [contradiction|].
  unbind. destruct Hx as [->|Hx]; [eauto|].
  eapply IH; eassumption.
Qed.

(** ** The effect of a handler *)

(** A field handler that returns either left its state alone or stored one
    value under its name. *)
Ltac effect :=
  handler_cases;
  match goal with
  | H : Python.set_field _ _ _ = Ok _ |- _ => right; eexists; exact H
  | H : ?st = ?st' |- _ => left; symmetry; exact H
  end.

Ltac stores :=
  handler_cases;
  match goal with
  | H : Python.set_field _ _ _ = Ok _ |- _ => eexists; exact H
  end.

Section Effects.
Variable db : ref -> instance.
Variable relations : relations_t.
Variable use_natural_keys : bool.
Variable nested : string -> serializer.

Lemma handle_field_stores obj field st st' :
Python.handle_field obj field st = Ok st' ->
exists v, _get_val_from_obj field obj = Ok v
          /\ Python.set_field st (Field.name field) (field_value field v)
             = Ok st'.
Proof.
unfold Python.handle_field, field_value. intros H. unbind.
exists a. split; [assumption|]. now destruct (is_protected_type a).
Qed.

Lemma handle_fk_field_stores obj field st st' :
Python.handle_fk_field db relations use_natural_keys nested obj field st
= Ok st' ->
exists v, Python.set_field st (Field.name field) v = Ok st'.
Proof. unfold Python.handle_fk_field. intros H. stores. Qed.

Lemma handle_m2m_field_effect obj field st st' :
Python.handle_m2m_field db relations use_natural_keys nested obj field st
= Ok st' ->
st' = st \/ exists v, Python.set_field st (Field.name field) v = Ok st'.
Proof. unfold Python.handle_m2m_field. intros H. effect. Qed.

Lemma handle_related_fk_field_effect obj n st st' :
Python.handle_related_fk_field db relations nested obj n st = Ok st' ->
st' = st \/ exists v, Python.set_field st n v = Ok st'.
Proof. unfold Python.handle_related_fk_field. intros H. effect. Qed.

Lemma handle_related_m2m_field_effect obj n st st' :
Python.handle_related_m2m_field relations nested obj n st = Ok st' ->
st' = st \/ exists v, Python.set_field st n v = Ok st'.
Proof. unfold Python.handle_related_m2m_field. intros H. effect. Qed.
End Effects.

(** ** The finished records do not matter to a handler *)

Lemma set_field_shift objs st k v :
  Python.set_field (with_objects objs st) k v
  = lift_objects objs (Python.set_field st k v).
Proof.
  unfold Python.set_field. simpl.
  now destruct (setitem (Python._fields st) k v).
Qed.

Lemma set_extra_shift objs st k v :
  Python.set_extra (with_objects objs st) k v
  = lift_objects objs (Python.set_extra st k v).
Proof.
  unfold Python.set_extra. simpl.
  now destruct (setitem (Python._extras st) k v).
Qed.

(** Runs through the conditionals of a handler on both sides. *)
Ltac shift :=
  repeat match goal with
         | |- context [bind ?m _] => destruct m; simpl
         | |- context [if ?c then _ else _] => destruct c; simpl
         | |- context [match ?x with _ => _ end] => destruct x; simpl
         end;
  rewrite ?set_field_shift, ?set_extra_shift; reflexivity.

Section Shift.
Variable db : ref -> instance.
Variable relations : relations_t.
Variable use_natural_keys : bool.
Variable nested : string -> serializer.
Variables fields excludes extras : list string.

Let hooks := Python.Serializer db relations use_natural_keys nested.

Lemma handle_field_shift objs obj f st :
Python.handle_field obj f (with_objects objs st)
= lift_objects objs (Python.handle_field obj f st).
Proof. unfold Python.handle_field. shift. Qed.

Lemma handle_fk_field_shift objs obj f st :
Python.handle_fk_field db relations use_natural_keys nested obj f
  (with_objects objs st)
= lift_objects objs
    (Python.handle_fk_field db relations use_natural_keys nested obj f st).
Proof. unfold Python.handle_fk_field. shift. Qed.

Lemma handle_m2m_field_shift objs obj f st :
Python.handle_m2m_field db relations use_natural_keys nested obj f
  (with_objects objs st)
= lift_objects objs
    (Python.handle_m2m_field db relations use_natural_keys nested obj f st).
Proof. unfold Python.handle_m2m_field. shift. Qed.

Lemma handle_related_fk_field_shift objs obj n st :
Python.handle_related_fk_field db relations nested obj n (with_objects objs st)
= lift_objects objs
    (Python.handle_related_fk_field db relations nested obj n st).
Proof. unfold Python.handle_related_fk_field. shift. Qed.

Lemma handle_related_m2m_field_shift objs obj n st :
Python.handle_related_m2m_field relations nested obj n (with_objects objs st)
= lift_objects objs
    (Python.handle_related_m2m_field relations nested obj n st).
Proof. unfold Python.handle_related_m2m_field. shift. Qed.

Lemma handle_extra_field_shift objs obj n st :
Python.handle_extra_field db obj n (with_objects objs st)
= lift_objects objs (Python.handle_extra_field db obj n st).
Proof. unfold Python.handle_extra_field. shift. Qed.

Lemma for_each_shift {A : Type}
(body : A -> Python.state -> result Python.state) (l : list A) objs :
(forall x st, body x (with_objects objs st) = lift_objects objs (body x st)) ->
forall st,
  for_each body l (with_objects objs st)
  = lift_objects objs (for_each body l st).
Proof.
intros Hbody. induction l as [|x tl IH]; simpl; intros st; [reflexivity|].
rewrite Hbody. destruct (body x st) as [st'|e]; simpl; [apply IH | reflexivity].
Qed.

Lemma local_field_step_shift objs obj f st :
Base.local_field_step (hooks := hooks) fields excludes obj f
  (with_objects objs st)
= lift_objects objs
    (Base.local_field_step (hooks := hooks) fields excludes obj f st).
Proof.
rewrite !local_field_step_eq.
destruct (local_dispatched fields excludes f); [|reflexivity].
destruct (Field.rel f); simpl.
- apply handle_fk_field_shift.
- apply handle_field_shift.
Qed.

Lemma m2m_field_step_shift objs obj f st :
Base.m2m_field_step (hooks := hooks) fields excludes obj f
  (with_objects objs st)
= lift_objects objs
    (Base.m2m_field_step (hooks := hooks) fields excludes obj f st).
Proof.
rewrite !m2m_field_step_eq.
destruct (m2m_dispatched fields excludes f); [|reflexivity].
apply handle_m2m_field_shift.
Qed.

Lemma related_fk_step_shift objs obj ro st :
Base.related_fk_step (hooks := hooks) excludes obj ro (with_objects objs st)
= lift_objects objs
    (Base.related_fk_step (hooks := hooks) excludes obj ro st).
Proof.
unfold Base.related_fk_step. destruct (negb _); [|reflexivity].
apply handle_related_fk_field_shift.
Qed.

Lemma related_m2m_step_shift objs obj ro st :
Base.related_m2m_step (hooks := hooks) excludes obj ro (with_objects objs st)
= lift_objects objs
    (Base.related_m2m_step (hooks := hooks) excludes obj ro st).
Proof.
unfold Base.related_m2m_step. destruct (negb _); [|reflexivity].
apply handle_related_m2m_field_shift.
Qed.

Lemma for_each_objects {A : Type}
(body : A -> Python.state -> result Python.state) (l : list A) :
(forall x st st', body x st = Ok st' -> Python.objects st' = Python.objects st) ->
forall st st', for_each body l st = Ok st' ->
  Python.objects st' = Python.objects st.
Proof.
intros Hbody st st' H.
refine (for_each_invariant
          (fun s => Python.objects s = Python.objects st) body l
          _ st st' eq_refl H).
intros x s s' _ Hs Hx. apply Hbody in Hx. congruence.
Qed.

(** Serializing an object after others appends to their records the
  record it has on its own. *)
Lemma serialize_object_shift o f x objs :
Base.serialize_object (hooks := hooks) db fields excludes extras o
  (Python.State f x objs)
= match Base.serialize_object (hooks := hooks) db fields excludes extras o
          Python.init with
  | Ok st =>
      Ok (Python.State (VScalar PyNone) (VScalar PyNone)
            (objs ++ Python.objects st))
  | Raise e => Raise e
  end.
Proof.
unfold Base.serialize_object. simpl. unfold Python.start_object. simpl.
destruct (as_model db o) as [obj|e]; simpl; [|reflexivity].
change (Python.State (VDict []) (VDict []) objs)
  with (with_objects objs (Python.State (VDict []) (VDict []) [])).
rewrite (for_each_shift _ _ _ (local_field_step_shift objs obj)).
destruct (for_each _ (Meta.local_fields _) _) as [s1|e] eqn:E1; simpl;
  [|reflexivity].
rewrite (for_each_shift _ _ _ (m2m_field_step_shift objs obj)).
destruct (for_each _ (Meta.many_to_many _) _) as [s2|e] eqn:E2; simpl;
  [|reflexivity].
rewrite (for_each_shift _ _ _ (related_fk_step_shift objs obj)).
destruct (for_each _ (Base.related_fk_objects _) _) as [s3|e] eqn:E3; simpl;
  [|reflexivity].
rewrite (for_each_shift _ _ _ (related_m2m_step_shift objs obj)).
destruct (for_each _ (Base.related_m2m_objects _) _) as [s4|e] eqn:E4; simpl;
  [|reflexivity].
rewrite (for_each_shift _ _ _ (handle_extra_field_shift objs obj)).
destruct (for_each _ extras _) as [s5|e] eqn:E5; simpl; [|reflexivity].
apply for_each_objects in E1;
  [|intros ? ? ?; apply local_field_step_objects].
apply for_each_objects in E2;
  [|intros ? ? ?; apply m2m_field_step_objects].
apply for_each_objects in E3;
  [|intros ? ? ?; apply related_fk_step_objects].
apply for_each_objects in E4;
  [|intros ? ? ?; apply related_m2m_step_objects].
apply for_each_objects in E5;
  [|intros ? ? ? Hx; simpl in Hx;
    now apply handle_extra_field_fields in Hx].
assert (O : Python.objects s5 = []) by (simpl in *; congruence).
unfold Python.end_object. simpl. now rewrite O.
Qed.
End Shift.

(** ** Serializing a queryset object by object *)

Section Map.
Variable db : ref -> instance.
Variable relations : relations_t.
Variable use_natural_keys : bool.
Variable nested : string -> serializer.
Variables fields excludes extras : list string.

Let hooks := Python.Serializer db relations use_natural_keys nested.
Let one := Base.serialize_object (hooks := hooks) db fields excludes extras.

Lemma serialize_object_init o st :
one o Python.init = Ok st ->
st = Python.State (VScalar PyNone) (VScalar PyNone) (Python.objects st).
Proof.
intros H.
pose proof (serialize_object_shift db relations use_natural_keys nested
              fields excludes extras o (VScalar PyNone) (VScalar PyNone) [])
  as S.
change (Python.State (VScalar PyNone) (VScalar PyNone) [])
  with Python.init in S.
fold hooks in S. fold one in S. rewrite H in S. simpl in S.
now injection S.
Qed.

Lemma for_each_object_shift qs objs :
for_each one qs (Python.State (VScalar PyNone) (VScalar PyNone) objs)
= match for_each one qs Python.init with
  | Ok st =>
      Ok (Python.State (VScalar PyNone) (VScalar PyNone)
            (objs ++ Python.objects st))
  | Raise e => Raise e
  end.
Proof.
revert objs. induction qs as [|q tl IH]; simpl; intros objs.
- now rewrite app_nil_r.
- pose proof (serialize_object_shift db relations use_natural_keys nested
                fields excludes extras q (VScalar PyNone) (VScalar PyNone)
                objs) as S.
  fold hooks in S. fold one in S. rewrite S.
  destruct (one q Python.init) as [st1|e] eqn:E; simpl; [|reflexivity].
  rewrite IH. rewrite (serialize_object_init _ _ E). rewrite IH. simpl.
  destruct (for_each one tl Python.init); [|reflexivity].
  now rewrite <- app_assoc.
Qed.

Lemma serialize_with_cons q qs :
serialize_with db relations nested fields excludes extras use_natural_keys
  (q :: qs)
= r <- serialize_with db relations nested fields excludes extras
         use_natural_keys [q] ;;
  rs <- serialize_with db relations nested fields excludes extras
          use_natural_keys qs ;;
  Ok (r ++ rs).
Proof.
unfold serialize_with, Base.serialize. simpl. fold hooks. fold one.
change (Python.State (VScalar PyNone) (VScalar PyNone) []) with Python.init.
destruct (one q Python.init) as [st1|e] eqn:E; simpl; [|reflexivity].
rewrite (serialize_object_init _ _ E). rewrite for_each_object_shift. simpl.
now destruct (for_each one qs Python.init).
Qed.
End Map.

Lemma serialize_cons (db : ref -> instance) (o : options) (q : pyval)
  (qs : list pyval) :
  serialize db o (q :: qs)
  = r <- serialize db o [q] ;; rs <- serialize db o qs ;; Ok (r ++ rs).
Proof.
  destruct o as [fields excludes relations extras nk].
  rewrite !serialize_unfold. apply serialize_with_cons.
Qed.

Lemma serialize_nil (db : ref -> instance) (o : options) :
  serialize db o [] = Ok [].
Proof. now destruct o. Qed.

(** What the handlers of to-many relations compute: the record of each
    related object on its own, in order, is the serialization of them
    all. *)
Lemma comprehension_serialize (db : ref -> instance) (o : options)
  (qs : list pyval) :
  comprehension (fun q => recs <- serialize db o [q] ;; first recs) qs
  = serialize db o qs.
Proof.
  induction qs as [|q tl IH]; simpl.
  - now rewrite serialize_nil.
  - rewrite (serialize_cons db o q tl), IH.
    destruct (serialize db o [q]) as [r|e] eqn:E; simpl; [|reflexivity].
    destruct (serialize_one _ _ _ _ E) as (rec & ->). simpl.
    reflexivity.
Qed.

(** X1. Serializing a queryset is serializing its objects one by one: the
    result for two querysets put end to end is the records of the first
    followed by the records of the second, and it is an error as soon as
    one of them is. The record of an object does not depend on the objects
    serialized before or after it. *)
Theorem serialize_app (db : ref -> instance) (o : options)
  (qs1 qs2 : list pyval) :
  serialize db o (qs1 ++ qs2)
  = r1 <- serialize db o qs1 ;; r2 <- serialize db o qs2 ;; Ok (r1 ++ r2).
Proof.
  induction qs1 as [|q tl IH]; simpl.
  - rewrite serialize_nil. simpl. now destruct (serialize db o qs2).
  - rewrite (serialize_cons db o q (tl ++ qs2)), IH, (serialize_cons db o q tl).
    destruct (serialize db o [q]) as [r|e]; simpl; [|reflexivity].
    destruct (serialize db o tl) as [rs|e]; simpl; [|reflexivity].
    destruct (serialize db o qs2) as [r2|e]; simpl; [|reflexivity].
    now rewrite app_assoc.
Qed.

(** ** Expanded to-many relations *)

(** X2. For a many-to-many field with an auto-created through model that
    is named in [relations], the handler stores under the field's name the
    list that a nested [serialize] of all the related objects returns, in
    the manager's order, run with the field's nested options; it fails
    when that nested call fails. *)
Theorem m2m_expanded_is_nested_serialize (db : ref -> instance)
  (relations : relations_t) (nk : bool) (obj : instance) (f : Field.t)
  (k : bool) (st : Python.state) (repr : string) (items : list ref) :
  Field.rel f = Some (Rel.ManyToMany true k) ->
  rel_contains relations (Field.name f) = true ->
  getattr obj (Field.name f) = Ok (PyManager repr items) ->
  Python.handle_m2m_field db relations nk (nested_of db relations) obj f st
  = recs <- serialize db (nested_options relations (Field.name f))
              (map PyModel items) ;;
    Python.set_field st (Field.name f) (VList recs).
Proof.
  intros Hrel Hin Hget.
  unfold Python.handle_m2m_field, field_rel. rewrite Hrel. simpl.
  rewrite Hin, Hget. simpl.
  rewrite (nested_of_options _ _ _ Hin).
  now rewrite comprehension_serialize.
Qed.

Lemma m2m_expanded_is_nested_serialize_witness :
  Python.handle_m2m_field Library.db (RelList ["tags"]) false
    (nested_of Library.db (RelList ["tags"])) Library.book_x
    (Library.many_to_many "tags" true)
    (Python.State (VDict []) (VDict []) [])
  = Ok (Python.State
          (VDict
             [("tags",
               VList
                 [VDict [("model", VScalar (PyStr "app.tag"));
                         ("pk", VScalar (PyInt 31));
                         ("fields", VDict [("label", VScalar (PyStr "classic"))])];
                  VDict [("model", VScalar (PyStr "app.tag"));
                         ("pk", VScalar (PyInt 30));
                         ("fields", VDict [("label", VScalar (PyStr "fiction"))])]])])
          (VDict []) []).
Proof.
  rewrite (m2m_expanded_is_nested_serialize Library.db (RelList ["tags"]) false
             Library.book_x (Library.many_to_many "tags" true) false
             (Python.State (VDict []) (VDict []) []) "app.Tag.None" [31; 30]
             eq_refl eq_refl eq_refl).
  vm_compute. reflexivity.
Defined.

(** X3. For an accessor named in [relations] whose value is a manager, the
    handlers of reverse many-to-many relations and of reverse foreign keys
    store the same thing under the accessor's name: the list that a nested
    [serialize] of all the related objects returns, run with the accessor's
    nested options. *)
Theorem reverse_expanded_is_nested_serialize (db : ref -> instance)
  (relations : relations_t) (obj : instance) (n : string)
  (st : Python.state) (repr : string) (items : list ref) :
  rel_contains relations n = true ->
  getattr obj n = Ok (PyManager repr items) ->
  Python.handle_related_m2m_field relations (nested_of db relations) obj n st
  = (recs <- serialize db (nested_options relations n) (map PyModel items) ;;
     Python.set_field st n (VList recs))
  /\ Python.handle_related_fk_field db relations (nested_of db relations)
       obj n st
     = (recs <- serialize db (nested_options relations n) (map PyModel items) ;;
        Python.set_field st n (VList recs)).
Proof.
  intros Hin Hget. split.
  - unfold Python.handle_related_m2m_field. rewrite Hin, Hget. simpl.
    rewrite (nested_of_options _ _ _ Hin).
    now rewrite comprehension_serialize.
  - unfold Python.handle_related_fk_field. rewrite Hget. simpl.
    rewrite Hin. simpl.
    now rewrite (nested_of_options _ _ _ Hin).
Qed.

Lemma reverse_expanded_is_nested_serialize_witness :
  exists recs,
    serialize Library.db no_options [PyModel 10; PyModel 11] = Ok recs
    /\ Python.handle_related_m2m_field (RelList ["book_set"])
         (nested_of Library.db (RelList ["book_set"])) Library.alice "book_set"
         (Python.State (VDict []) (VDict []) [])
       = Ok (Python.State (VDict [("book_set", VList recs)]) (VDict []) [])
    /\ Python.handle_related_fk_field Library.db (RelList ["book_set"])
         (nested_of Library.db (RelList ["book_set"])) Library.alice "book_set"
         (Python.State (VDict []) (VDict []) [])
       = Ok (Python.State (VDict [("book_set", VList recs)]) (VDict []) []).
Proof.
  destruct (reverse_expanded_is_nested_serialize Library.db
              (RelList ["book_set"]) Library.alice "book_set"
              (Python.State (VDict []) (VDict []) []) "app.Book.None" [10; 11]
              eq_refl eq_refl) as [Hm2m Hfk].
  eexists. split; [vm_compute; reflexivity|].
  split.
  - rewrite Hm2m. vm_compute. reflexivity.
  - rewrite Hfk. vm_compute. reflexivity.
Defined.

(** ** The states an object goes through *)

Lemma set_field_extras st k v st' :
  Python.set_field st k v = Ok st' ->
  Python._extras st' = Python._extras st
  /\ Python.objects st' = Python.objects st
  /\ getitem (Python._fields st') k = Some v
  /\ exists d, Python._fields st' = VDict d.
Proof.
  intros H. apply set_field_Ok in H. destruct H as (d & Hd & ->). simpl.
  repeat split; eauto using dict_get_set_same.
Qed.

Lemma set_field_keeps st k v st' N :
  Python.set_field st k v = Ok st' ->
  getitem (Python._fields st) N <> None ->
  getitem (Python._fields st') N <> None.
Proof.
  intros H. apply set_field_Ok in H. destruct H as (d & Hd & ->). simpl.
  rewrite Hd. simpl. destruct (String.eqb N k) eqn:E.
  - apply String.eqb_eq in E. subst. now rewrite dict_get_set_same.
  - apply String.eqb_neq in E. now rewrite dict_get_set_other.
Qed.

(** A property kept by every store of a loop is kept by the loop. *)
Lemma for_each_stores {A : Type}
  (body : A -> Python.state -> result Python.state) (key : A -> string)
  (l : list A) (P : Python.state -> Prop) :
  (forall x st st', In x l -> body x st = Ok st' ->
     st' = st \/ exists v, Python.set_field st (key x) v = Ok st') ->
  (forall x st v st', In x l -> P st ->
     Python.set_field st (key x) v = Ok st' -> P st') ->
  forall st st', P st -> for_each body l st = Ok st' -> P st'.
Proof.
  intros Heff Hset. apply for_each_invariant.
  intros x st st' Hin HP Hx.
  destruct (Heff x st st' Hin Hx) as [->|(v & Hv)]; [assumption|].
  now apply (Hset x st v st' Hin).
Qed.

Section States.
Variable db : ref -> instance.
Variable relations : relations_t.
Variable use_natural_keys : bool.
Variable nested : string -> serializer.
Variables fields excludes extras : list string.

Let hooks := Python.Serializer db relations use_natural_keys nested.

Lemma local_field_step_effect obj f st st' :
Base.local_field_step (hooks := hooks) fields excludes obj f st = Ok st' ->
st' = st
\/ exists v, Python.set_field st (Field.name f) v = Ok st'.
Proof.
rewrite local_field_step_eq. intros H.
destruct (local_dispatched fields excludes f);
  [|left; now injection H as <-].
right. destruct (Field.rel f); simpl in H.
- now apply handle_fk_field_stores in H.
- apply handle_field_stores in H. destruct H as (v & _ & H). eauto.
Qed.

Lemma m2m_field_step_effect obj f st st' :
Base.m2m_field_step (hooks := hooks) fields excludes obj f st = Ok st' ->
st' = st
\/ exists v, Python.set_field st (Field.name f) v = Ok st'.
Proof.
rewrite m2m_field_step_eq. intros H.
destruct (m2m_dispatched fields excludes f);
  [|left; now injection H as <-].
simpl in H. now apply handle_m2m_field_effect in H.
Qed.

Lemma related_fk_step_effect obj ro st st' :
Base.related_fk_step (hooks := hooks) excludes obj ro st = Ok st' ->
st' = st
\/ exists v, Python.set_field st (Relation.get_accessor_name ro) v = Ok st'.
Proof.
unfold Base.related_fk_step. intros H.
destruct (negb _); [|left; now injection H as <-].
simpl in H. now apply handle_related_fk_field_effect in H.
Qed.

Lemma related_m2m_step_effect obj ro st st' :
Base.related_m2m_step (hooks := hooks) excludes obj ro st = Ok st' ->
st' = st
\/ exists v, Python.set_field st (Relation.get_accessor_name ro) v = Ok st'.
Proof.
unfold Base.related_m2m_step. intros H.
destruct (negb _); [|left; now injection H as <-].
simpl in H. now apply handle_related_m2m_field_effect in H.
Qed.

(** The states between the loops of [serialize_object], and the record
  the last of them gives. *)
Lemma serialize_object_states o self self' :
Base.serialize_object (hooks := hooks) db fields excludes extras o self
= Ok self' ->
exists obj s1 s2 s3 s4 s5 rec,
  as_model db o = Ok obj
  /\ for_each (Base.local_field_step (hooks := hooks) fields excludes obj)
       (Meta.local_fields (_meta obj))
       (Python.State (VDict []) (VDict []) (Python.objects self)) = Ok s1
  /\ for_each (Base.m2m_field_step (hooks := hooks) fields excludes obj)
       (Meta.many_to_many (_meta obj)) s1 = Ok s2
  /\ for_each (Base.related_fk_step (hooks := hooks) excludes obj)
       (Base.related_fk_objects (_meta obj)) s2 = Ok s3
  /\ for_each (Base.related_m2m_step (hooks := hooks) excludes obj)
       (Base.related_m2m_objects (_meta obj)) s3 = Ok s4
  /\ for_each (Python.handle_extra_field db obj) extras s4 = Ok s5
  /\ Python.objects self' = Python.objects self ++ [rec]
  /\ getitem rec "model" = Some (VScalar (PyStr (Meta.label (_meta obj))))
  /\ getitem rec "pk" = Some (VScalar (smart_str db (_get_pk_val obj)))
  /\ getitem rec "fields" = Some (Python._fields s5)
  /\ getitem rec "extras"
     = if truthy (Python._extras s5) then Some (Python._extras s5) else None.
Proof.
intros Hrun. unfold Base.serialize_object in Hrun. unbind.
simpl in E. unfold Python.start_object in E. injection E as <-.
exists a0, a1, a2, a3, a4, a5.
simpl in Hrun. unfold Python.end_object in Hrun. injection Hrun as <-.
eexists. repeat (split; [eassumption|]).
assert (O : Python.objects a5 = Python.objects self).
{ apply for_each_objects in E1;
    [|intros ? ? ?; apply local_field_step_objects].
  apply for_each_objects in E2;
    [|intros ? ? ?; apply m2m_field_step_objects].
  apply for_each_objects in E3;
    [|intros ? ? ?; apply related_fk_step_objects].
  apply for_each_objects in E4;
    [|intros ? ? ?; apply related_m2m_step_objects].
  apply for_each_objects in E5;
    [|intros ? ? ? Hx; now apply handle_extra_field_fields in Hx].
  simpl in *. congruence. }
simpl. rewrite O. split; [reflexivity|].
destruct (truthy (Python._extras a5)); simpl; auto.
Qed.

(** A property kept by every store under a name of the model holds of the
  state after the four loops over fields and relations. *)
Lemma field_loops_invariant (P : Python.state -> Prop) obj s0 s1 s2 s3 s4 :
(forall k st v st',
   In k (forward_names (_meta obj) ++ reverse_names (_meta obj)) ->
   P st -> Python.set_field st k v = Ok st' -> P st') ->
for_each (Base.local_field_step (hooks := hooks) fields excludes obj)
  (Meta.local_fields (_meta obj)) s0 = Ok s1 ->
for_each (Base.m2m_field_step (hooks := hooks) fields excludes obj)
  (Meta.many_to_many (_meta obj)) s1 = Ok s2 ->
for_each (Base.related_fk_step (hooks := hooks) excludes obj)
  (Base.related_fk_objects (_meta obj)) s2 = Ok s3 ->
for_each (Base.related_m2m_step (hooks := hooks) excludes obj)
  (Base.related_m2m_objects (_meta obj)) s3 = Ok s4 ->
P s0 -> (P s1 /\ P s2 /\ P s3 /\ P s4).
Proof.
intros HP E1 E2 E3 E4 P0.
unfold forward_names, reverse_names in HP.
assert (P1 : P s1).
{ refine (for_each_stores _ Field.name _ P _ _ s0 s1 P0 E1).
  - intros x st st' _. apply local_field_step_effect.
  - intros x st v st' Hin. apply HP.
    rewrite !in_app_iff. left. left. now apply in_map. }
assert (P2 : P s2).
{ refine (for_each_stores _ Field.name _ P _ _ s1 s2 P1 E2).
  - intros x st st' _. apply m2m_field_step_effect.
  - intros x st v st' Hin. apply HP.
    rewrite !in_app_iff. left. right. now apply in_map. }
assert (P3 : P s3).
{ refine (for_each_stores _ Relation.get_accessor_name _ P _ _ s2 s3 P2 E3).
  - intros x st st' _. apply related_fk_step_effect.
  - intros x st v st' Hin. apply HP.
    rewrite !in_app_iff. right. left. now apply in_map. }
assert (P4 : P s4).
{ refine (for_each_stores _ Relation.get_accessor_name _ P _ _ s3 s4 P3 E4).
  - intros x st st' _. apply related_m2m_step_effect.
  - intros x st v st' Hin. apply HP.
    rewrite !in_app_iff. right. right. now apply in_map. }
auto.
Qed.

(** The same for the three loops that follow the local fields. *)
Lemma relation_loops_invariant (P : Python.state -> Prop) obj s1 s2 s3 s4 :
(forall k st v st',
   In k (map Field.name (Meta.many_to_many (_meta obj))
         ++ reverse_names (_meta obj)) ->
   P st -> Python.set_field st k v = Ok st' -> P st') ->
for_each (Base.m2m_field_step (hooks := hooks) fields excludes obj)
  (Meta.many_to_many (_meta obj)) s1 = Ok s2 ->
for_each (Base.related_fk_step (hooks := hooks) excludes obj)
  (Base.related_fk_objects (_meta obj)) s2 = Ok s3 ->
for_each (Base.related_m2m_step (hooks := hooks) excludes obj)
  (Base.related_m2m_objects (_meta obj)) s3 = Ok s4 ->
P s1 -> P s4.
Proof.
intros HP E2 E3 E4 P1.
unfold reverse_names in HP.
assert (P2 : P s2).
{ refine (for_each_stores _ Field.name _ P _ _ s1 s2 P1 E2).
  - intros x st st' _. apply m2m_field_step_effect.
  - intros x st v st' Hin. apply HP.
    rewrite !in_app_iff. left. now apply in_map. }
assert (P3 : P s3).
{ refine (for_each_stores _ Relation.get_accessor_name _ P _ _ s2 s3 P2 E3).
  - intros x st st' _. apply related_fk_step_effect.
  - intros x st v st' Hin. apply HP.
    rewrite !in_app_iff. right. left. now apply in_map. }
refine (for_each_stores _ Relation.get_accessor_name _ P _ _ s3 s4 P3 E4).
- intros x st st' _. apply related_m2m_step_effect.
- intros x st v st' Hin. apply HP.
  rewrite !in_app_iff. right. right. now apply in_map.
Qed.
End States.

(** A loop that returns, cut at one of its elements. *)
Lemma for_each_at {A S : Type} (body : A -> S -> result S) (l : list A)
  (x : A) (st st' : S) :
  In x l -> for_each body l st = Ok st' ->
  exists l1 l2 sa sb,
    l = l1 ++ x :: l2
    /\ for_each body l1 st = Ok sa
    /\ body x sa = Ok sb
    /\ for_each body l2 sb = Ok st'.
Proof.
  intros Hin H. apply in_split in Hin. destruct Hin as (l1 & l2 & ->).
  rewrite for_each_app in H. unbind. simpl in H. unbind.
  exists l1, l2, a, a0. auto.
Qed.

(** ** The shape of a record *)

Lemma extras_loop_fields db obj l st st' :
  for_each (Python.handle_extra_field db obj) l st = Ok st' ->
  Python._fields st' = Python._fields st.
Proof.
  intros H.
  refine (for_each_invariant
            (fun s => Python._fields s = Python._fields st) _ l _ st st'
            eq_refl H).
  intros x s s' _ Hs Hx. apply handle_extra_field_fields in Hx.
  destruct Hx. congruence.
Qed.

(** X4. A successful [serialize] returns one record per object of the
    queryset, in order; every object is a model instance, and its record
    holds the model's label under "model", what [smart_str] makes of its
    primary key under "pk", and a dict under "fields". *)
Theorem serialize_record_shape (db : ref -> instance) (o : options)
  (queryset : list pyval) (recs : list value) :
  serialize db o queryset = Ok recs ->
  Forall2
    (fun q rec =>
       exists obj fs,
         as_model db q = Ok obj
         /\ getitem rec "model" = Some (VScalar (PyStr (Meta.label (_meta obj))))
         /\ getitem rec "pk" = Some (VScalar (smart_str db (_get_pk_val obj)))
         /\ getitem rec "fields" = Some (VDict fs))
    queryset recs.
Proof.
  destruct o as [fields excludes relations extras nk].
  rewrite serialize_unfold. apply serialize_with_Forall2.
  intros q self self' H. apply serialize_object_states in H.
  destruct H as (obj & s1 & s2 & s3 & s4 & s5 & rec & Hobj & E1 & E2 & E3 & E4
                 & E5 & Hrec & Hmodel & Hpk & Hfields & _).
  exists rec. split; [assumption|].
  assert (D : exists d, Python._fields s4 = VDict d).
  { refine (proj2 (proj2 (proj2
              (field_loops_invariant _ _ _ _ _ _
                 (fun st => exists d, Python._fields st = VDict d)
                 obj _ s1 s2 s3 s4 _ E1 E2 E3 E4 _)))).
    - intros k st v st' _ _ Hset. now apply set_field_extras in Hset.
    - simpl. eauto. }
  destruct D as (d & Hd).
  exists obj, d. rewrite (extras_loop_fields _ _ _ _ _ E5) in Hfields.
  rewrite Hd in Hfields. auto.
Qed.

Lemma serialize_record_shape_witness :
  exists r1 r2,
    serialize Library.db no_options [PyModel 20; PyModel 1] = Ok [r1; r2]
    /\ getitem r1 "model" = Some (VScalar (PyStr "app.publisher"))
    /\ getitem r1 "pk"
       = Some (VScalar (PyStr "6fa459ea-ee8a-3ca4-894e-db77e160355e"))
    /\ getitem r2 "model" = Some (VScalar (PyStr "app.author"))
    /\ getitem r2 "pk" = Some (VScalar (PyInt 1)).
Proof.
  do 2 eexists. split; [vm_compute; reflexivity|].
  pose proof (serialize_record_shape Library.db no_options
                [PyModel 20; PyModel 1] _ ltac:(vm_compute; reflexivity)) as H.
  inversion H as [|q1 r1 qs1 rs1 H1 H']; subst.
  apply Forall2_singleton in H'.
  destruct H1 as (o1 & f1 & A1 & M1 & P1 & _).
  destruct H' as (o2 & f2 & A2 & M2 & P2 & _).
  injection A1 as <-. injection A2 as <-.
  split; [exact M1|]. split; [exact P1|]. split; [exact M2 | exact P2].
Defined.

(** ** Extras *)

Lemma handle_extra_field_eq db obj n st d :
  Python._extras st = VDict d ->
  Python.handle_extra_field db obj n st
  = Ok (Python.State (Python._fields st)
          (VDict match extra_value db obj n with
                 | Some v => dict_set d n v
                 | None => d
                 end)
          (Python.objects st)).
Proof.
  intros Hd.
  unfold Python.handle_extra_field, hasattr, getattr, extra_value,
    Python.set_extra.
  destruct (assoc (attrs obj) n) as [v|]; simpl.
  - destruct v; simpl; rewrite Hd; reflexivity.
  - destruct st; simpl in *. now subst.
Qed.

Lemma contains_cons n l k :
  contains (n :: l) k = String.eqb k n || contains l k.
Proof. reflexivity. Qed.

(** After the loop over [extras], the dict holds what the handler stores
    for each of the names, and what it held before under the others. *)
Lemma extras_loop db obj l :
  forall d st st',
    Python._extras st = VDict d ->
    for_each (Python.handle_extra_field db obj) l st = Ok st' ->
    exists d',
      Python._extras st' = VDict d'
      /\ forall k,
           dict_get d' k
           = if contains l k then
               match extra_value db obj k with
               | Some v => Some v
               | None => dict_get d k
               end
             else dict_get d k.
Proof.
  induction l as [|n tl IH]; intros d st st' Hd H; simpl in H.
  - injection H as <-. exists d. auto.
  - rewrite (handle_extra_field_eq _ _ _ _ _ Hd) in H. simpl in H.
    apply IH with (d := match extra_value db obj n with
                        | Some v => dict_set d n v
                        | None => d
                        end) in H; [|reflexivity].
    destruct H as (d' & Hd' & Hget). exists d'. split; [assumption|].
    intros k. rewrite Hget, contains_cons.
    destruct (String.eqb k n) eqn:E.
    + apply String.eqb_eq in E. subst k. simpl.
      destruct (extra_value db obj n) as [v|].
      * rewrite dict_get_set_same. now destruct (contains tl n).
      * now destruct (contains tl n).
    + apply String.eqb_neq in E. simpl.
      destruct (extra_value db obj n) as [v|];
        [rewrite (dict_get_set_other _ _ _ _ E)|]; reflexivity.
Qed.

Lemma dict_empty (d : dict) :
  (forall k, dict_get d k = None) -> d = [].
Proof.
  destruct d as [|[k v] tl]; [reflexivity|].
  intros H. specialize (H k). simpl in H. now rewrite String.eqb_refl in H.
Qed.

Lemma extra_value_hasattr db obj n :
  extra_value db obj n = None <-> hasattr obj n = false.
Proof.
  unfold extra_value, hasattr.
  destruct (assoc (attrs obj) n) as [v|]; [|tauto].
  destruct v; split; discriminate.
Qed.

(** X5. In the record of an object, the extras hold exactly the names of
    [extras] that the object has as attributes, each bound to what the
    handler stores for it; and the record has no "extras" key at all
    exactly when the object has none of the names. *)
Theorem extras_of_record (db : ref -> instance) (o : options)
  (queryset : list pyval) (recs : list value) :
  serialize db o queryset = Ok recs ->
  Forall2
    (fun q rec =>
       forall obj, as_model db q = Ok obj ->
         (forall n,
            record_extra rec n
            = if contains (opt_extras o) n then extra_value db obj n else None)
         /\ (getitem rec "extras" = None
             <-> forall n, In n (opt_extras o) -> hasattr obj n = false))
    queryset recs.
Proof.
  destruct o as [fields excludes relations extras nk]. simpl opt_extras.
  rewrite serialize_unfold. apply serialize_with_Forall2.
  intros q self self' H. apply serialize_object_states in H.
  destruct H as (obj & s1 & s2 & s3 & s4 & s5 & rec & Hobj & E1 & E2 & E3 & E4
                 & E5 & Hrec & _ & _ & _ & Hextras).
  exists rec. split; [assumption|].
  intros obj' Hobj'. rewrite Hobj in Hobj'. injection Hobj' as <-.
  assert (X4 : Python._extras s4 = VDict []).
  { refine (proj2 (proj2 (proj2
              (field_loops_invariant _ _ _ _ _ _
                 (fun st => Python._extras st = VDict [])
                 obj _ s1 s2 s3 s4 _ E1 E2 E3 E4 eq_refl)))).
    intros k st v st' _ Hst Hset. apply set_field_extras in Hset.
    destruct Hset as (Hx & _). congruence. }
  destruct (extras_loop _ _ _ _ _ _ X4 E5) as (d' & Hd' & Hget).
  rewrite Hd' in Hextras. simpl in Hget.
  assert (Hlook : forall n,
            dict_get d' n
            = if contains extras n then extra_value db obj n else None).
  { intros n. rewrite Hget. destruct (contains extras n); [|reflexivity].
    now destruct (extra_value db obj n). }
  split.
  - intros n. unfold record_extra. rewrite Hextras.
    destruct d' as [|p tl]; simpl.
    + rewrite <- Hlook. reflexivity.
    + apply Hlook.
  - split.
    + intros Hnone n Hn. rewrite Hextras in Hnone.
      destruct d' as [|p tl]; simpl in Hnone; [|discriminate].
      apply (extra_value_hasattr db). apply contains_In in Hn.
      specialize (Hlook n). rewrite Hn in Hlook. simpl in Hlook. congruence.
    + intros Hall. rewrite Hextras.
      assert (d' = []) as ->; [|reflexivity].
      apply dict_empty. intros k. rewrite Hlook.
      destruct (contains extras k) eqn:C; [|reflexivity].
      apply (extra_value_hasattr db), Hall. now apply contains_In.
Qed.

Lemma extras_of_record_witness :
  exists rec,
    serialize Library.db
      (Options [] [] (RelList []) ["nickname"; "missing"; "book_count"] false)
      [PyModel 1] = Ok [rec]
    /\ record_extra rec "nickname" = Some (VScalar (PyStr "Al"))
    /\ record_extra rec "missing" = None
    /\ record_extra rec "book_count" = Some (VScalar (PyInt 2))
    /\ record_extra rec "full_name" = None.
Proof.
  eexists. split; [vm_compute; reflexivity|].
  pose proof (Forall2_singleton _ _ _
                (extras_of_record Library.db
                   (Options [] [] (RelList [])
                      ["nickname"; "missing"; "book_count"] false)
                   [PyModel 1] _ ltac:(vm_compute; reflexivity))
                Library.alice eq_refl) as [H _].
  split; [|split; [|split]]; rewrite H; reflexivity.
Defined.

(** ** Which fields a record has *)

(** X6. For a model whose names are distinct, a local or many-to-many
    field that the orchestrator does not dispatch (it is not serializable,
    its name is excluded, or there is an allow-list that does not hold its
    name) is missing from the fields of the record. *)
Theorem undispatched_field_is_absent (db : ref -> instance) (o : options)
  (queryset : list pyval) (recs : list value) :
  serialize db o queryset = Ok recs ->
  Forall2
    (fun q rec =>
       forall obj f, as_model db q = Ok obj ->
         distinct_names (_meta obj) ->
         (In f (Meta.local_fields (_meta obj))
          /\ local_dispatched (opt_fields o) (opt_excludes o) f = false)
         \/ (In f (Meta.many_to_many (_meta obj))
             /\ m2m_dispatched (opt_fields o) (opt_excludes o) f = false) ->
         record_field rec (Field.name f) = None)
    queryset recs.
Proof.
  destruct o as [fields excludes relations extras nk].
  cbn [opt_fields opt_excludes].
  intros Hrun. rewrite serialize_unfold in Hrun.
  apply serialize_with_absent in Hrun.
  revert Hrun. apply Forall2_impl. intros q rec Habs obj f Hobj Hnd Hf.
  apply (Habs obj (Field.name f) Hobj).
  unfold distinct_names, forward_names in Hnd.
  pose proof (NoDup_app_remove_r _ _ Hnd) as Hfw.
  repeat split.
  - intros g Hg Hname. destruct Hf as [[Hf Hd]|[Hf Hd]].
    + apply NoDup_app_remove_r in Hfw.
      now rewrite (NoDup_map_eq Field.name _ g f Hfw Hg Hf Hname).
    + exfalso. apply (NoDup_app_disjoint _ _ (Field.name f) Hfw);
        [rewrite <- Hname|]; now apply in_map.
  - intros g Hg Hname. left. destruct Hf as [[Hf Hd]|[Hf Hd]].
    + exfalso. apply (NoDup_app_disjoint _ _ (Field.name f) Hfw);
        [|rewrite <- Hname]; now apply in_map.
    + apply NoDup_app_remove_l in Hfw.
      now rewrite (NoDup_map_eq Field.name _ g f Hfw Hg Hf Hname).
  - intros ro Hro Hname. exfalso.
    apply (NoDup_app_disjoint _ _ (Field.name f) Hnd).
    + apply in_or_app. destruct Hf as [[Hf _]|[Hf _]];
        [left | right]; now apply in_map.
    + unfold reverse_names. apply in_or_app. left.
      rewrite <- Hname. now apply in_map.
  - intros ro Hro Hname. exfalso.
    apply (NoDup_app_disjoint _ _ (Field.name f) Hnd).
    + apply in_or_app. destruct Hf as [[Hf _]|[Hf _]];
        [left | right]; now apply in_map.
    + unfold reverse_names. apply in_or_app. right.
      rewrite <- Hname. now apply in_map.
Qed.

Lemma book_names_distinct : distinct_names Library.book_meta.
Proof.
  unfold distinct_names. vm_compute.
  repeat constructor; simpl; intuition discriminate.
Defined.

Lemma undispatched_field_is_absent_witness :
  exists rec,
    serialize Library.db (Options ["unknown"] [] (RelList []) [] false)
      [PyModel 10] = Ok [rec]
    /\ record_field rec "id" = None
    /\ record_field rec "title" = None
    /\ record_field rec "tags" = None.
Proof.
  eexists. split; [vm_compute; reflexivity|].
  pose proof (Forall2_singleton _ _ _
                (undispatched_field_is_absent Library.db
                   (Options ["unknown"] [] (RelList []) [] false)
                   [PyModel 10] _ ltac:(vm_compute; reflexivity))) as H.
  split; [|split].
  - apply (H Library.book_x (Library.primary_key "id") eq_refl
             book_names_distinct).
    left. split; [simpl; auto | reflexivity].
  - apply (H Library.book_x (Library.column "title") eq_refl
             book_names_distinct).
    left. split; [simpl; auto | reflexivity].
  - apply (H Library.book_x (Library.many_to_many "tags" true) eq_refl
             book_names_distinct).
    right. split; [simpl; auto | reflexivity].
Defined.

(** X7. The fields of a record have no key but names of the model: a name
    that is neither the name of a local or many-to-many field nor the
    accessor of a reverse relation is missing, whatever the options say
    about it. *)
Theorem record_keys_are_names (db : ref -> instance) (o : options)
  (queryset : list pyval) (recs : list value) :
  serialize db o queryset = Ok recs ->
  Forall2
    (fun q rec =>
       forall obj N, as_model db q = Ok obj ->
         ~ In N (forward_names (_meta obj) ++ reverse_names (_meta obj)) ->
         record_field rec N = None)
    queryset recs.
Proof.
  destruct o as [fields excludes relations extras nk].
  intros Hrun. rewrite serialize_unfold in Hrun.
  apply serialize_with_absent in Hrun.
  revert Hrun. apply Forall2_impl. intros q rec Habs obj N Hobj Hnot.
  apply (Habs obj N Hobj).
  unfold forward_names, reverse_names in Hnot. rewrite !in_app_iff in Hnot.
  repeat split; intros x Hx Hname; exfalso; apply Hnot; rewrite <- Hname.
  - left. left. now apply in_map.
  - left. right. now apply in_map.
  - right. left. now apply in_map.
  - right. right. now apply in_map.
Qed.

Lemma record_keys_are_names_witness :
  exists rec,
    serialize Library.db
      (Options ["title"; "isbn"] [] (RelList ["isbn"]) [] false)
      [PyModel 10] = Ok [rec]
    /\ record_field rec "title" = Some (VScalar (PyStr "X"))
    /\ record_field rec "isbn" = None.
Proof.
  eexists. split; [vm_compute; reflexivity|].
  split; [reflexivity|].
  apply (Forall2_singleton _ _ _
           (record_keys_are_names Library.db
              (Options ["title"; "isbn"] [] (RelList ["isbn"]) [] false)
              [PyModel 10] _ ltac:(vm_compute; reflexivity))
           Library.book_x "isbn" eq_refl).
  simpl. intuition discriminate.
Defined.

Section Present.
Variable db : ref -> instance.
Variable relations : relations_t.
Variable use_natural_keys : bool.
Variable nested : string -> serializer.
Variables fields excludes extras : list string.

Let hooks := Python.Serializer db relations use_natural_keys nested.

(** What the handler of a dispatched local field stores stays a key of the
  fields to the end of the object. *)
Lemma dispatched_local_present o self self' :
Base.serialize_object (hooks := hooks) db fields excludes extras o self
= Ok self' ->
exists rec,
  Python.objects self' = Python.objects self ++ [rec]
  /\ forall obj f, as_model db o = Ok obj ->
       In f (Meta.local_fields (_meta obj)) ->
       local_dispatched fields excludes f = true ->
       record_field rec (Field.name f) <> None.
Proof.
intros H. apply serialize_object_states in H.
destruct H as (obj & s1 & s2 & s3 & s4 & s5 & rec & Hobj & E1 & E2 & E3 & E4
               & E5 & Hrec & _ & _ & Hfields & _).
exists rec. split; [assumption|].
intros obj' f Hobj' Hf Hd. rewrite Hobj in Hobj'. injection Hobj' as <-.
unfold record_field. rewrite Hfields, (extras_loop_fields _ _ _ _ _ E5).
set (P := fun st => getitem (Python._fields st) (Field.name f) <> None).
destruct (for_each_at _ _ f _ _ Hf E1)
  as (l1 & l2 & sa & sb & Hl & _ & Hstep & Hrest).
assert (Pb : P sb).
{ apply local_field_step_effect in Hstep as Heff.
  rewrite local_field_step_eq, Hd in Hstep.
  assert (exists v, Python.set_field sa (Field.name f) v = Ok sb) as (v & Hv).
  { destruct (Field.rel f); simpl in Hstep.
    - now apply handle_fk_field_stores in Hstep.
    - apply handle_field_stores in Hstep.
      destruct Hstep as (v & _ & Hv). eauto. }
  apply set_field_extras in Hv. destruct Hv as (_ & _ & Hv & _).
  unfold P. now rewrite Hv. }
assert (P1 : P s1).
{ refine (for_each_stores _ Field.name _ P _ _ sb s1 Pb Hrest).
  - intros x st st' _. apply local_field_step_effect.
  - intros x st v st' _ HP Hset. exact (set_field_keeps _ _ _ _ _ Hset HP). }
refine (relation_loops_invariant _ _ _ _ _ _ P obj s1 s2 s3 s4 _ E2 E3 E4 P1).
intros k st v st' _ HP Hset. exact (set_field_keeps _ _ _ _ _ Hset HP).
Qed.

(** Under distinct names nothing overwrites what [handle_field] stored. *)
Lemma direct_field_kept o self self' :
Base.serialize_object (hooks := hooks) db fields excludes extras o self
= Ok self' ->
exists rec,
  Python.objects self' = Python.objects self ++ [rec]
  /\ forall obj f, as_model db o = Ok obj ->
       distinct_names (_meta obj) ->
       In f (Meta.local_fields (_meta obj)) ->
       Field.rel f = None ->
       local_dispatched fields excludes f = true ->
       exists v,
         getattr obj (Field.attname f) = Ok v
         /\ record_field rec (Field.name f) = Some (field_value f v).
Proof.
intros H. apply serialize_object_states in H.
destruct H as (obj & s1 & s2 & s3 & s4 & s5 & rec & Hobj & E1 & E2 & E3 & E4
               & E5 & Hrec & _ & _ & Hfields & _).
exists rec. split; [assumption|].
intros obj' f Hobj' Hnd Hf Hrel Hd. rewrite Hobj in Hobj'.
injection Hobj' as <-.
unfold record_field. rewrite Hfields, (extras_loop_fields _ _ _ _ _ E5).
destruct (for_each_at _ _ f _ _ Hf E1)
  as (l1 & l2 & sa & sb & Hl & _ & Hstep & Hrest).
rewrite local_field_step_eq, Hd, Hrel in Hstep. simpl in Hstep.
apply handle_field_stores in Hstep. destruct Hstep as (v & Hv & Hset).
exists v. split; [exact Hv|].
set (P := fun st =>
            getitem (Python._fields st) (Field.name f)
            = Some (field_value f v)).
assert (Hkeep : forall k st w st',
          k <> Field.name f -> P st ->
          Python.set_field st k w = Ok st' -> P st').
{ intros k st w st' Hne HP Hw. apply set_field_writes in Hw.
  destruct Hw as [_ Hw]. unfold P. rewrite Hw by congruence. exact HP. }
unfold distinct_names, forward_names in Hnd. rewrite Hl in Hnd.
assert (Pb : P sb).
{ apply set_field_extras in Hset. now destruct Hset as (_ & _ & Hset & _). }
assert (P1 : P s1).
{ refine (for_each_stores _ Field.name _ P _ _ sb s1 Pb Hrest).
  - intros x st st' _. apply local_field_step_effect.
  - intros x st w st' Hin. apply Hkeep. intros Hname.
    apply NoDup_app_remove_r, NoDup_app_remove_r in Hnd.
    rewrite map_app in Hnd. simpl in Hnd.
    apply NoDup_remove_2 in Hnd. apply Hnd.
    apply in_or_app. right. rewrite <- Hname. now apply in_map. }
refine (relation_loops_invariant _ _ _ _ _ _ P obj s1 s2 s3 s4 _ E2 E3 E4 P1).
intros k st w st' Hin. apply Hkeep. intros Hname.
rewrite <- app_assoc in Hnd.
apply (NoDup_app_disjoint _ _ (Field.name f) Hnd).
- apply in_map, in_or_app. right. now left.
- now rewrite <- Hname.
Qed.
End Present.

(** X8. Every local field that the orchestrator dispatches, direct or
    foreign key, is a key of the fields of the record: its handler stores a
    value on every path that returns, a foreign key with no related object
    included, and nothing removes a key. *)
Theorem dispatched_local_field_is_present (db : ref -> instance) (o : options)
  (queryset : list pyval) (recs : list value) :
  serialize db o queryset = Ok recs ->
  Forall2
    (fun q rec =>
       forall obj f, as_model db q = Ok obj ->
         In f (Meta.local_fields (_meta obj)) ->
         local_dispatched (opt_fields o) (opt_excludes o) f = true ->
         record_field rec (Field.name f) <> None)
    queryset recs.
Proof.
  destruct o as [fields excludes relations extras nk].
  cbn [opt_fields opt_excludes].
  rewrite serialize_unfold. apply serialize_with_Forall2.
  intros q self self'. apply dispatched_local_present.
Qed.

Lemma dispatched_local_field_is_present_witness :
  exists rec,
    serialize Library.db no_options [PyModel 11] = Ok [rec]
    /\ record_field rec "title" <> None
    /\ record_field rec "publisher" <> None.
Proof.
  eexists. split; [vm_compute; reflexivity|].
  pose proof (Forall2_singleton _ _ _
                (dispatched_local_field_is_present Library.db no_options
                   [PyModel 11] _ ltac:(vm_compute; reflexivity))) as H.
  split.
  - apply (H Library.book_y (Library.column "title") eq_refl);
      [simpl; auto | reflexivity].
  - apply (H Library.book_y (Library.foreign_key "publisher" "uuid") eq_refl);
      [simpl; tauto | reflexivity].
Defined.

(** X9. For a model whose names are distinct, the record holds, under the
    name of every dispatched direct field, the value read from the object's
    attribute: the value itself when it is of a protected type, the string
    the field renders it to otherwise. No later field or relation
    overwrites it. *)
Theorem direct_field_value (db : ref -> instance) (o : options)
  (queryset : list pyval) (recs : list value) :
  serialize db o queryset = Ok recs ->
  Forall2
    (fun q rec =>
       forall obj f, as_model db q = Ok obj ->
         distinct_names (_meta obj) ->
         In f (Meta.local_fields (_meta obj)) ->
         Field.rel f = None ->
         local_dispatched (opt_fields o) (opt_excludes o) f = true ->
         exists v,
           getattr obj (Field.attname f) = Ok v
           /\ record_field rec (Field.name f) = Some (field_value f v))
    queryset recs.
Proof.
  destruct o as [fields excludes relations extras nk].
  cbn [opt_fields opt_excludes].
  rewrite serialize_unfold. apply serialize_with_Forall2.
  intros q self self'. apply direct_field_kept.
Qed.

Lemma author_names_distinct : distinct_names Library.author_meta.
Proof.
  unfold distinct_names. vm_compute.
  repeat constructor; simpl; intuition discriminate.
Defined.

Lemma direct_field_value_witness :
  exists rec,
    serialize Library.db no_options [PyModel 1] = Ok [rec]
    /\ record_field rec "name" = Some (VScalar (PyStr "Alice"))
    /\ record_field rec "born" = Some (VScalar (PyProtected "1920-01-02")).
Proof.
  eexists. split; [vm_compute; reflexivity|].
  pose proof (Forall2_singleton _ _ _
                (direct_field_value Library.db no_options
                   [PyModel 1] _ ltac:(vm_compute; reflexivity))) as H.
  split.
  - destruct (H Library.alice (Library.column "name") eq_refl
                author_names_distinct ltac:(simpl; auto) eq_refl eq_refl)
      as (v & Hv & Hrec).
    injection Hv as <-. exact Hrec.
  - destruct (H Library.alice (Library.column "born") eq_refl
                author_names_distinct ltac:(simpl; auto) eq_refl eq_refl)
      as (v & Hv & Hrec).
    injection Hv as <-. exact Hrec.
Defined.

(** ** Attributes that cannot be read *)

(** A queryset that serializes had each of its objects run through
    [serialize_object]. *)
Lemma serialize_with_ran db relations nested fields excludes extras nk
  (queryset : list pyval) (recs : list value) (q : pyval) :
  serialize_with db relations nested fields excludes extras nk queryset
  = Ok recs ->
  In q queryset ->
  exists self self',
    Base.serialize_object
      (hooks := Python.Serializer db relations nk nested)
      db fields excludes extras q self = Ok self'.
Proof.
  unfold serialize_with, Base.serialize. simpl. intros H Hq. unbind.
  eapply for_each_Ok_each; eassumption.
Qed.

(** X10. The handler of a reverse foreign key reads the accessor before
    it looks at [relations]: when an object of the queryset cannot be read
    under the accessor of one of its reverse foreign keys, and the accessor
    is not excluded, [serialize] raises, whether or not the accessor is in
    [relations]. *)
Theorem unreadable_reverse_fk_fails (db : ref -> instance) (o : options)
  (queryset : list pyval) (q : pyval) (obj : instance) (ro : Relation.t)
  (e0 : exn) :
  In q queryset ->
  as_model db q = Ok obj ->
  In ro (Base.related_fk_objects (_meta obj)) ->
  contains (opt_excludes o) (Relation.get_accessor_name ro) = false ->
  getattr obj (Relation.get_accessor_name ro) = Raise e0 ->
  exists e, serialize db o queryset = Raise e.
Proof.
  destruct o as [fields excludes relations extras nk]. simpl opt_excludes.
  intros Hq Hobj Hro Hex Hget.
  destruct (serialize db (Options fields excludes relations extras nk) queryset)
    as [recs|e] eqn:Hrun; [exfalso | eauto].
  rewrite serialize_unfold in Hrun.
  destruct (serialize_with_ran _ _ _ _ _ _ _ _ _ q Hrun Hq) as (s & s' & H).
  apply serialize_object_states in H.
  destruct H as (obj' & s1 & s2 & s3 & s4 & s5 & rec & Hobj' & _ & _ & E3 & _).
  rewrite Hobj in Hobj'. injection Hobj' as <-.
  destruct (for_each_Ok_each _ _ _ _ E3 ro Hro) as (t & t' & Hstep).
  unfold Base.related_fk_step in Hstep. rewrite Hex in Hstep. simpl in Hstep.
  unfold Python.handle_related_fk_field in Hstep. rewrite Hget in Hstep.
  discriminate Hstep.
Qed.

Lemma unreadable_reverse_fk_fails_witness :
  (exists e, serialize Orphans.db no_options [PyModel 1; PyModel 2] = Raise e)
  /\ exists recs,
       serialize Orphans.db (Options [] ["profile"] (RelList []) [] false)
         [PyModel 1; PyModel 2] = Ok recs.
Proof.
  split.
  - apply (unreadable_reverse_fk_fails Orphans.db no_options
             [PyModel 1; PyModel 2] (PyModel 2) Orphans.bob
             (Library.reverse_one_to_one "profile") AttributeError);
      [simpl; auto | reflexivity | simpl; auto | reflexivity | reflexivity].
  - eexists. vm_compute. reflexivity.
Defined.

(** X11. A local field that is dispatched is read from the object, a
    direct field under its attribute name and a foreign key under its
    name: when an object of the queryset cannot be read there, [serialize]
    raises. *)
Theorem unreadable_local_field_fails (db : ref -> instance) (o : options)
  (queryset : list pyval) (q : pyval) (obj : instance) (f : Field.t)
  (e0 : exn) :
  In q queryset ->
  as_model db q = Ok obj ->
  In f (Meta.local_fields (_meta obj)) ->
  local_dispatched (opt_fields o) (opt_excludes o) f = true ->
  getattr obj (match Field.rel f with
               | None => Field.attname f
               | Some _ => Field.name f
               end) = Raise e0 ->
  exists e, serialize db o queryset = Raise e.
Proof.
  destruct o as [fields excludes relations extras nk].
  cbn [opt_fields opt_excludes].
  intros Hq Hobj Hf Hd Hget.
  destruct (serialize db (Options fields excludes relations extras nk) queryset)
    as [recs|e] eqn:Hrun; [exfalso | eauto].
  rewrite serialize_unfold in Hrun.
  destruct (serialize_with_ran _ _ _ _ _ _ _ _ _ q Hrun Hq) as (s & s' & H).
  apply serialize_object_states in H.
  destruct H as (obj' & s1 & s2 & s3 & s4 & s5 & rec & Hobj' & E1 & _).
  rewrite Hobj in Hobj'. injection Hobj' as <-.
  destruct (for_each_Ok_each _ _ _ _ E1 f Hf) as (t & t' & Hstep).
  rewrite local_field_step_eq, Hd in Hstep.
  destruct (Field.rel f); simpl in Hstep.
  - unfold Python.handle_fk_field in Hstep. rewrite Hget in Hstep.
    discriminate Hstep.
  - unfold Python.handle_field, _get_val_from_obj in Hstep.
    rewrite Hget in Hstep. discriminate Hstep.
Qed.

Lemma unreadable_local_field_fails_witness :
  (exists e, serialize Orphans.db no_options [PyModel 10; PyModel 30] = Raise e)
  /\ exists recs,
       serialize Orphans.db (Options [] ["label"] (RelList []) [] false)
         [PyModel 10; PyModel 31] = Ok recs.
Proof.
  split.
  - apply (unreadable_local_field_fails Orphans.db no_options
             [PyModel 10; PyModel 30] (PyModel 30) Orphans.untitled
             (Library.column "label") AttributeError);
      [simpl; auto | reflexivity | simpl; auto | reflexivity | reflexivity].
  - eexists. vm_compute. reflexivity.
Defined.

(** ** The order of the calls *)

Lemma for_each_models_recorded db fields excludes extras (rs : list ref) :
  forall st,
    for_each
      (Base.serialize_object (hooks := Spy.Recorder) db fields excludes extras)
      (map PyModel rs) st
    = Ok (st ++ flat_map
                  (fun r => Spy.object_calls fields excludes extras (_meta (db r)))
                  rs).
Proof.
  induction rs as [|r tl IH]; simpl; intros st.
  - now rewrite app_nil_r.
  - rewrite serialize_object_recorded. simpl. rewrite IH.
    now rewrite <- app_assoc.
Qed.

(** X12. The orchestrator goes through the queryset in order and, for each
    object, calls its hooks in a fixed order: [start_object]; the handlers
    of the dispatched local fields, in the order the model declares them;
    those of the many-to-many fields; of the reverse foreign keys that are
    not excluded; of the reverse many-to-many relations that are not
    excluded; [handle_extra_field] for every name of [extras], in order;
    [end_object]. *)
Theorem dispatch_order (db : ref -> instance)
  (fields excludes extras : list string) (rs : list ref) :
  Spy.dispatched db fields excludes extras (map PyModel rs)
  = Ok (flat_map
          (fun r =>
             [Spy.StartObject]
             ++ flat_map (Spy.local_calls fields excludes)
                  (Meta.local_fields (_meta (db r)))
             ++ flat_map (Spy.m2m_calls fields excludes)
                  (Meta.many_to_many (_meta (db r)))
             ++ flat_map (Spy.related_fk_calls excludes)
                  (Base.related_fk_objects (_meta (db r)))
             ++ flat_map (Spy.related_m2m_calls excludes)
                  (Base.related_m2m_objects (_meta (db r)))
             ++ map Spy.HandleExtra extras
             ++ [Spy.EndObject])
          rs).
Proof.
  unfold Spy.dispatched, Base.serialize. simpl.
  now rewrite for_each_models_recorded.
Qed.

(** ** A reverse relation expanded in the record *)

Lemma handle_related_fk_field_manager db relations obj n st repr items :
  rel_contains relations n = true ->
  getattr obj n = Ok (PyManager repr items) ->
  Python.handle_related_fk_field db relations (nested_of db relations) obj n st
  = recs <- serialize db (nested_options relations n) (map PyModel items) ;;
    Python.set_field st n (VList recs).
Proof.
  intros Hin Hget. unfold Python.handle_related_fk_field.
  rewrite Hget. simpl. rewrite Hin. simpl.
  now rewrite (nested_of_options _ _ _ Hin).
Qed.

Section Expanded.
Variable db : ref -> instance.
Variable relations : relations_t.
Variable use_natural_keys : bool.
Variables fields excludes extras : list string.

Let hooks :=
Python.Serializer db relations use_natural_keys (nested_of db relations).

Lemma reverse_fk_kept o self self' :
Base.serialize_object (hooks := hooks) db fields excludes extras o self
= Ok self' ->
exists rec,
  Python.objects self' = Python.objects self ++ [rec]
  /\ forall obj ro repr items, as_model db o = Ok obj ->
       distinct_names (_meta obj) ->
       In ro (Base.related_fk_objects (_meta obj)) ->
       contains excludes (Relation.get_accessor_name ro) = false ->
       rel_contains relations (Relation.get_accessor_name ro) = true ->
       getattr obj (Relation.get_accessor_name ro)
       = Ok (PyManager repr items) ->
       exists nested_recs,
         serialize db
           (nested_options relations (Relation.get_accessor_name ro))
           (map PyModel items) = Ok nested_recs
         /\ record_field rec (Relation.get_accessor_name ro)
            = Some (VList nested_recs).
Proof.
intros H. apply serialize_object_states in H.
destruct H as (obj & s1 & s2 & s3 & s4 & s5 & rec & Hobj & E1 & E2 & E3 & E4
               & E5 & Hrec & _ & _ & Hfields & _).
exists rec. split; [assumption|].
intros obj' ro repr items Hobj' Hnd Hro Hex Hin Hget.
rewrite Hobj in Hobj'. injection Hobj' as <-.
unfold record_field. rewrite Hfields, (extras_loop_fields _ _ _ _ _ E5).
destruct (for_each_at _ _ ro _ _ Hro E3)
  as (l1 & l2 & sa & sb & Hl & _ & Hstep & Hrest).
unfold Base.related_fk_step in Hstep. rewrite Hex in Hstep. simpl in Hstep.
rewrite (handle_related_fk_field_manager _ _ _ _ _ _ _ Hin Hget) in Hstep.
unbind. rename a into nested_recs.
exists nested_recs. split; [assumption|].
set (N := Relation.get_accessor_name ro) in *.
set (P := fun st => getitem (Python._fields st) N = Some (VList nested_recs)).
assert (Hkeep : forall k st w st',
          k <> N -> P st -> Python.set_field st k w = Ok st' -> P st').
{ intros k st w st' Hne HP Hw. apply set_field_writes in Hw.
  destruct Hw as [_ Hw]. unfold P. rewrite Hw by congruence. exact HP. }
unfold distinct_names in Hnd. apply NoDup_app_remove_l in Hnd.
unfold reverse_names in Hnd. rewrite Hl in Hnd.
assert (Pb : P sb).
{ apply set_field_extras in Hstep. now destruct Hstep as (_ & _ & Hset & _). }
assert (P3 : P s3).
{ refine (for_each_stores _ Relation.get_accessor_name _ P _ _ sb s3 Pb Hrest).
  - intros x st st' _. apply related_fk_step_effect.
  - intros x st w st' Hx. apply Hkeep. intros Hname.
    apply NoDup_app_remove_r in Hnd.
    rewrite map_app in Hnd. simpl in Hnd.
    apply NoDup_remove_2 in Hnd. apply Hnd.
    apply in_or_app. right. fold N. rewrite <- Hname. now apply in_map. }
refine (for_each_stores _ Relation.get_accessor_name _ P _ _ s3 s4 P3 E4).
- intros x st st' _. apply related_m2m_step_effect.
- intros x st w st' Hx. apply Hkeep. intros Hname.
  apply (NoDup_app_disjoint _ _ N Hnd).
  + apply in_map. apply in_or_app. right. now left.
  + rewrite <- Hname. now apply in_map.
Qed.
End Expanded.

(** X13. For a model whose names are distinct, the accessor of a reverse
    foreign key that is in [relations] and not in [excludes], and whose
    value is a manager, is bound in the record to the list that a nested
    [serialize] of the related objects returns, run with the accessor's
    nested options; [fields] has no say in it. *)
Theorem reverse_fk_expanded_in_record (db : ref -> instance) (o : options)
  (queryset : list pyval) (recs : list value) :
  serialize db o queryset = Ok recs ->
  Forall2
    (fun q rec =>
       forall obj ro repr items, as_model db q = Ok obj ->
         distinct_names (_meta obj) ->
         In ro (Base.related_fk_objects (_meta obj)) ->
         contains (opt_excludes o) (Relation.get_accessor_name ro) = false ->
         rel_contains (opt_relations o) (Relation.get_accessor_name ro) = true ->
         getattr obj (Relation.get_accessor_name ro)
         = Ok (PyManager repr items) ->
         exists nested_recs,
           serialize db
             (nested_options (opt_relations o) (Relation.get_accessor_name ro))
             (map PyModel items) = Ok nested_recs
           /\ record_field rec (Relation.get_accessor_name ro)
              = Some (VList nested_recs))
    queryset recs.
Proof.
  destruct o as [fields excludes relations extras nk].
  cbn [opt_excludes opt_relations].
  rewrite serialize_unfold. apply serialize_with_Forall2.
  intros q self self'. apply reverse_fk_kept.
Qed.

Lemma reverse_fk_expanded_in_record_witness :
  exists rec books,
    serialize Library.db (Options ["name"] [] (RelList ["book_set"]) [] false)
      [PyModel 1] = Ok [rec]
    /\ serialize Library.db no_options [PyModel 10; PyModel 11] = Ok books
    /\ record_field rec "book_set" = Some (VList books).
Proof.
  eexists.
  destruct (Forall2_singleton _ _ _
              (reverse_fk_expanded_in_record Library.db
                 (Options ["name"] [] (RelList ["book_set"]) [] false)
                 [PyModel 1] _ ltac:(vm_compute; reflexivity))
              Library.alice (Library.reverse_fk "book_set") "app.Book.None"
              [10; 11] eq_refl author_names_distinct
              ltac:(simpl; auto) eq_refl eq_refl eq_refl)
    as (books & Hbooks & Hrec).
  exists books. split; [reflexivity|]. split; [exact Hbooks | exact Hrec].
Defined.
